(** * Signal-Protocol-Demo: a shallow embedding of SignalProtocolDemo.js

    The development follows the layout of the JavaScript file:
    [SignalServerStore] (the dummy directory), [SignalProtocolManager]
    (identity and bundle generation, encrypt, decrypt) and [runDemo].
    The protocol library, the in-memory key store and the [util] helpers
    that the file calls are not part of the translated source; they are
    modelled from the specification (sections 3 to 7) over symbolic
    cryptography, each such definition saying so in its comment. *)

From Stdlib Require Import ZArith Lia.
From stdpp Require Import base option gmap strings list.

Open Scope string_scope.
Open Scope list_scope.

(** ** Results of asynchronous calls *)

(** The error taxonomy of section 7 of the specification.  [NotFound]
    is the key-store failure of section 4.1; [AuthenticationFailure]
    (the authenticated cipher rejects the ciphertext), [MalformedMessage]
    (the body is not of the shape its decoder expects) and [TypeError]
    (a JavaScript value of the wrong kind) are the failures the taxonomy
    does not name. *)
Inductive Error :=
| InvalidSignature
| UnknownPreKeyId
| UnknownSignedPreKeyId
| NoSession
| DuplicateOrExpiredMessage
| StoreFailure
| NotFound
| AuthenticationFailure
| MalformedMessage
| TypeError.

#[global] Instance Error_eq_dec : EqDecision Error.
Proof. solve_decision. Defined.

(** A settled promise: resolved with a value or rejected with an error. *)
Inductive Outcome (A : Type) :=
| Resolved (a : A)
| Rejected (e : Error).
Arguments Resolved {A} a.
Arguments Rejected {A} e.

(** ** Symbolic cryptography *)

Module Crypto.

(** Modelled from the spec: the curve, hash and cipher primitives of the
    protocol library are missing from the sources.  Key pairs are named
    by the seed they were generated from; Diffie-Hellman outputs, key
    derivation (section 4.3), the keyed hash of the chain advance
    (section 4.4), signatures (section 3) and the authenticated cipher
    (section 4.6) are free symbolic terms, so two keys are equal exactly
    when they were derived the same way. *)
Inductive PrivKey := Priv (seed : nat).
Inductive PubKey := Pub (seed : nat).

Record KeyPair := { pubKey : PubKey; privKey : PrivKey }.

Definition createKeyPair (seed : nat) : KeyPair :=
  {| pubKey := Pub seed; privKey := Priv seed |}.

Inductive Label := Lmsg | Lchain | Lroot.

Inductive Secret :=
| DHOut (lo hi : nat)
| Cat (a b : Secret)
| Kdf (input : Secret)
| Mix (root dh : Secret) (out : Label)
| Hmac (key : Secret) (label : Label).

(** The shared secret of two key pairs does not depend on which side
    holds the private half. *)
Definition DH (a : PrivKey) (b : PubKey) : Secret :=
  match a, b with
  | Priv x, Pub y => DHOut (Nat.min x y) (Nat.max x y)
  end.

Inductive Signature := Sig (signer : nat) (message : PubKey).

Definition Ed25519Sign (k : PrivKey) (message : PubKey) : Signature :=
  match k with Priv s => Sig s message end.

#[global] Instance PubKey_eq_dec : EqDecision PubKey.
Proof. solve_decision. Defined.
#[global] Instance PrivKey_eq_dec : EqDecision PrivKey.
Proof. solve_decision. Defined.
#[global] Instance KeyPair_eq_dec : EqDecision KeyPair.
Proof. solve_decision. Defined.
#[global] Instance Label_eq_dec : EqDecision Label.
Proof. solve_decision. Defined.
#[global] Instance Secret_eq_dec : EqDecision Secret.
Proof. solve_decision. Defined.
#[global] Instance Signature_eq_dec : EqDecision Signature.
Proof. solve_decision. Defined.

Definition Ed25519Verify (k : PubKey) (message : PubKey) (s : Signature) : bool :=
  match k with Pub n => bool_decide (s = Sig n message) end.

(** An authenticated ciphertext opens only under the key that sealed it. *)
Record Sealed := { sealedUnder : Secret; sealedBytes : list Byte.byte }.

Definition seal (k : Secret) (plaintext : list Byte.byte) : Sealed :=
  {| sealedUnder := k; sealedBytes := plaintext |}.

Definition unseal (k : Secret) (c : Sealed) : Outcome (list Byte.byte) :=
  if bool_decide (sealedUnder c = k) then Resolved (sealedBytes c)
  else Rejected AuthenticationFailure.

End Crypto.
Export Crypto.

(** ** Pre-key bundles and JavaScript values *)

(** The object literal returned by [_generatePreKeyBundleAsync]
    (SignalProtocolDemo.js, lines 135 to 147). *)
Record PreKeyPublic := { pk_keyId : N; pk_publicKey : PubKey }.

Record SignedPreKeyPublic :=
  { spk_keyId : N; spk_publicKey : PubKey; spk_signature : Signature }.

Record PreKeyBundle :=
  { identityKey : PubKey;
    registrationId : N;
    preKey : PreKeyPublic;
    signedPreKey : SignedPreKeyPublic }.

(** The values a property read on the server's store object, or an
    argument of [util.toString], can be. *)
Inductive JsValue :=
| VUndefined
| VNumber (n : N)
| VArrayBuffer (bytes : list Byte.byte)
| VPublicKey (k : PubKey)
| VPreKey (p : PreKeyPublic)
| VSignedPreKey (p : SignedPreKeyPublic)
| VPreKeyBundle (b : PreKeyBundle)
| VFunction (name : string)
| VObjectPrototype
| VPromise.

(** ** SignalServerStore (SignalProtocolDemo.js, lines 7 to 31) *)

(** [this.store = {}] is an ordinary object: its own properties, and a
    prototype that is [Object.prototype] until an assignment to the key
    [__proto__] replaces it.  The only values ever assigned are bundles,
    so the prototype is either [Object.prototype] ([None]) or a bundle
    object ([Some b]), whose own prototype is [Object.prototype]. *)
Record SignalServerStore :=
  { own : gmap string PreKeyBundle;
    proto : option PreKeyBundle }.

(** [new SignalServerStore()] *)
Definition newSignalServerStore : SignalServerStore :=
  {| own := ∅; proto := None |}.

(** The property names every object inherits from [Object.prototype]. *)
Definition objectPrototypeNames : list string :=
  [ "constructor"; "hasOwnProperty"; "isPrototypeOf"; "propertyIsEnumerable";
    "toLocaleString"; "toString"; "valueOf";
    "__defineGetter__"; "__defineSetter__"; "__lookupGetter__";
    "__lookupSetter__"; "__proto__" ].

(** The own properties of a bundle object. *)
Definition bundleFieldNames : list string :=
  [ "identityKey"; "registrationId"; "preKey"; "signedPreKey" ].

Definition bundleField (b : PreKeyBundle) (key : string) : option JsValue :=
  if String.eqb key "identityKey" then Some (VPublicKey (identityKey b))
  else if String.eqb key "registrationId" then Some (VNumber (registrationId b))
  else if String.eqb key "preKey" then Some (VPreKey (preKey b))
  else if String.eqb key "signedPreKey" then Some (VSignedPreKey (signedPreKey b))
  else None.

(** A read that reaches [Object.prototype]: the [__proto__] accessor
    answers the receiver's prototype, the other inherited names answer
    the built-in method, anything else is [undefined]. *)
Definition objectPrototypeGet (receiverProto : JsValue) (key : string) : JsValue :=
  if String.eqb key "__proto__" then receiverProto
  else if bool_decide (key ∈ objectPrototypeNames) then VFunction key
  else VUndefined.

(** [obj[key]]: own property, then the prototype chain. *)
Definition objectGet (o : SignalServerStore) (key : string) : JsValue :=
  match own o !! key with
  | Some b => VPreKeyBundle b
  | None =>
      match proto o with
      | Some p =>
          match bundleField p key with
          | Some v => v
          | None => objectPrototypeGet (VPreKeyBundle p) key
          end
      | None => objectPrototypeGet VObjectPrototype key
      end
  end.

(** [obj[key] = bundle]: the key [__proto__] runs the inherited setter,
    which makes the bundle object the prototype; every other key defines
    or overwrites an own property (the inherited methods are writable
    data properties, so they are shadowed). *)
Definition objectSet (o : SignalServerStore) (key : string) (b : PreKeyBundle)
  : SignalServerStore :=
  if String.eqb key "__proto__"
  then {| own := own o; proto := Some b |}
  else {| own := <[key := b]> (own o); proto := proto o |}.

(** [registerNewPreKeyBundle(userId, preKeyBundle)], line 19. *)
Definition registerNewPreKeyBundle (userId : string) (preKeyBundle : PreKeyBundle)
    (this : SignalServerStore) : SignalServerStore :=
  objectSet this userId preKeyBundle.

(** [getPreKeyBundle(userId)], line 29. *)
Definition getPreKeyBundle (userId : string) (this : SignalServerStore) : JsValue :=
  objectGet this userId.

(** ** The protocol library's data (modelled from the specification) *)

(** [new libsignal.SignalProtocolAddress(name, deviceId)]: the pair that
    keys a session. *)
Abbreviation Address := (string * Z)%type.

Definition SignalProtocolAddress (name : string) (deviceId : Z) : Address :=
  (name, deviceId).

(** Modelled from the spec: the result objects of the library's
    [KeyHelper] (section 3: a PreKey is a key pair with a numeric ID, a
    SignedPreKey additionally carries a signature over its public key). *)
Record PreKeyRecord := { pre_keyId : N; pre_keyPair : KeyPair }.

Record SignedPreKeyRecord :=
  { signed_keyId : N; signed_keyPair : KeyPair; signed_signature : Signature }.

(** Modelled from the spec: one symmetric chain of section 4.4 with its
    message counter and, for receiving chains, the retained message keys
    of not-yet-consumed counters (section 4.7). *)
Record Chain :=
  { chainKey : Secret; counter : N; skippedKeys : gmap N Secret }.

(** Modelled from the spec: the handshake fields a PREKEY_MESSAGE embeds
    (section 4.6).  The sender's ratchet public key travels in the
    embedded ordinary message, see [WhisperMessage]. *)
Record Handshake :=
  { hs_identityKey : PubKey;
    hs_registrationId : N;
    hs_preKeyId : N;
    hs_signedPreKeyId : N;
    hs_baseKey : PubKey }.

(** Modelled from the spec: the SessionState of section 3.  The sending
    chain is absent until the next local send derives it (section 4.5);
    receiving chains are indexed by the remote ratchet key that opened
    them; [pendingHandshake] is set by key agreement and cleared by the
    first message sent, which is the PREKEY_MESSAGE. *)
Record SessionState :=
  { rootKey : Secret;
    localRatchet : KeyPair;
    remoteRatchet : option PubKey;
    previousRemoteRatchet : option PubKey;
    sendingChain : option Chain;
    receivingChains : gmap nat Chain;
    pendingHandshake : option Handshake }.

(** Modelled from the spec: the ordinary ciphertext (ratchet key, chain
    counter, sealed plaintext) and the two body shapes of section 3. *)
Record WhisperMessage :=
  { msg_ratchetKey : PubKey; msg_counter : N; msg_ciphertext : Sealed }.

Inductive Body :=
| PreKeyWhisperBody (h : Handshake) (m : WhisperMessage)
| WhisperBody (m : WhisperMessage).

(** The envelope the demo passes around: it reads [cipherText.type] and
    [cipherText.body] (lines 84 to 90). *)
Record Envelope := { type : Z; body : Body }.

Definition PREKEY_MESSAGE : Z := 3.
Definition ORDINARY_MESSAGE : Z := 1.

(** Modelled from the spec: the KeyStore of section 4.1, a typed store
    of the identity key pair, the registration ID, the one-time and the
    signed pre-keys by ID, and the sessions by remote address
    (InMemorySignalProtocolStore.js is not among the sources). *)
Record SignalProtocolStore :=
  { st_identityKey : option KeyPair;
    st_registrationId : option N;
    st_preKeys : gmap N KeyPair;
    st_signedPreKeys : gmap N KeyPair;
    st_sessions : gmap (string * Z) SessionState }.

(** [new SignalProtocolStore()] *)
Definition newSignalProtocolStore : SignalProtocolStore :=
  {| st_identityKey := None; st_registrationId := None;
     st_preKeys := ∅; st_signedPreKeys := ∅; st_sessions := ∅ |}.

(** What [put] can be handed by the demo: a key pair or a number. *)
Inductive StoreValue :=
| SKeyPair (k : KeyPair)
| SNumber (n : N).

Module KeyStore.

(** Modelled from the spec: [put(kind, value)] for the two kinds the
    demo writes; any other kind is a store failure. *)
Definition put (key : string) (value : StoreValue) (s : SignalProtocolStore)
  : Outcome SignalProtocolStore :=
  match value with
  | SKeyPair k =>
      if String.eqb key "identityKey"
      then Resolved {| st_identityKey := Some k;
                       st_registrationId := st_registrationId s;
                       st_preKeys := st_preKeys s;
                       st_signedPreKeys := st_signedPreKeys s;
                       st_sessions := st_sessions s |}
      else Rejected StoreFailure
  | SNumber n =>
      if String.eqb key "registrationId"
      then Resolved {| st_identityKey := st_identityKey s;
                       st_registrationId := Some n;
                       st_preKeys := st_preKeys s;
                       st_signedPreKeys := st_signedPreKeys s;
                       st_sessions := st_sessions s |}
      else Rejected StoreFailure
  end.

(** Modelled from the spec: reads fail with [NotFound] when the
    requested item is absent (section 4.1). *)
Definition getIdentityKeyPair (s : SignalProtocolStore) : Outcome KeyPair :=
  match st_identityKey s with
  | Some k => Resolved k
  | None => Rejected NotFound
  end.

Definition getLocalRegistrationId (s : SignalProtocolStore) : Outcome N :=
  match st_registrationId s with
  | Some n => Resolved n
  | None => Rejected NotFound
  end.

Definition storePreKey (keyId : N) (k : KeyPair) (s : SignalProtocolStore)
  : SignalProtocolStore :=
  {| st_identityKey := st_identityKey s;
     st_registrationId := st_registrationId s;
     st_preKeys := <[keyId := k]> (st_preKeys s);
     st_signedPreKeys := st_signedPreKeys s;
     st_sessions := st_sessions s |}.

Definition storeSignedPreKey (keyId : N) (k : KeyPair) (s : SignalProtocolStore)
  : SignalProtocolStore :=
  {| st_identityKey := st_identityKey s;
     st_registrationId := st_registrationId s;
     st_preKeys := st_preKeys s;
     st_signedPreKeys := <[keyId := k]> (st_signedPreKeys s);
     st_sessions := st_sessions s |}.

Definition removePreKey (keyId : N) (s : SignalProtocolStore)
  : SignalProtocolStore :=
  {| st_identityKey := st_identityKey s;
     st_registrationId := st_registrationId s;
     st_preKeys := delete keyId (st_preKeys s);
     st_signedPreKeys := st_signedPreKeys s;
     st_sessions := st_sessions s |}.

Definition loadSession (a : Address) (s : SignalProtocolStore)
  : option SessionState :=
  st_sessions s !! a.

Definition storeSession (a : Address) (x : SessionState) (s : SignalProtocolStore)
  : SignalProtocolStore :=
  {| st_identityKey := st_identityKey s;
     st_registrationId := st_registrationId s;
     st_preKeys := st_preKeys s;
     st_signedPreKeys := st_signedPreKeys s;
     st_sessions := <[a := x]> (st_sessions s) |}.

End KeyStore.

(** ** The protocol engine (modelled from the specification) *)

Module Ratchet.

(** Modelled from the spec: section 4.4, [advanceChain(chainKey) ->
    (nextChainKey, messageKey)] with messageKey = HMAC(chainKey, "msg")
    and nextChainKey = HMAC(chainKey, "chain"). *)
Definition advanceChain (ck : Secret) : Secret * Secret :=
  (Hmac ck Lchain, Hmac ck Lmsg).

(** Modelled from the spec: section 4.5, a Diffie-Hellman output is
    mixed into the root key by the key-derivation function, giving the
    next root key and a new chain key. *)
Definition mixRoot (root dh : Secret) : Secret * Secret :=
  (Mix root dh Lroot, Mix root dh Lchain).

(** Modelled from the spec: section 4.3, the root key of the initiator
    from DH(local identity, remote signed pre-key), DH(local ephemeral,
    remote identity), DH(local ephemeral, remote signed pre-key) and
    DH(local ephemeral, remote one-time pre-key). *)
Definition agreeInitiator (identity ephemeral : KeyPair) (b : PreKeyBundle)
  : Secret :=
  Kdf (Cat (DH (privKey identity) (spk_publicKey (signedPreKey b)))
      (Cat (DH (privKey ephemeral) (identityKey b))
      (Cat (DH (privKey ephemeral) (spk_publicKey (signedPreKey b)))
           (DH (privKey ephemeral) (pk_publicKey (preKey b)))))).

(** Modelled from the spec: section 4.7, the responder side, symmetric
    to [agreeInitiator], from the local key pairs the embedded IDs name. *)
Definition agreeResponder (identity signedPre oneTime : KeyPair)
    (remoteIdentity remoteEphemeral : PubKey) : Secret :=
  Kdf (Cat (DH (privKey signedPre) remoteIdentity)
      (Cat (DH (privKey identity) remoteEphemeral)
      (Cat (DH (privKey signedPre) remoteEphemeral)
           (DH (privKey oneTime) remoteEphemeral)))).

Definition newChain (ck : Secret) : Chain :=
  {| chainKey := ck; counter := 0; skippedKeys := ∅ |}.

Definition chainIndex (k : PubKey) : nat := match k with Pub n => n end.

(** Modelled from the spec: section 4.6, the send side.  A missing
    sending chain is first derived from the root key and the DH of the
    local ratchet key with the recorded remote ratchet key; the chain is
    then advanced once, the plaintext sealed under the message key and
    the counter incremented. *)
Definition ratchetEncrypt (s : SessionState) (plaintext : list Byte.byte)
  : Outcome (WhisperMessage * SessionState) :=
  let derived :=
    match sendingChain s, remoteRatchet s with
    | Some c, _ => Some (rootKey s, c)
    | None, Some r =>
        let '(root', ck) := mixRoot (rootKey s) (DH (privKey (localRatchet s)) r) in
        Some (root', newChain ck)
    | None, None => None
    end in
  match derived with
  | None => Rejected NoSession
  | Some (root', c) =>
      let '(next, mk) := advanceChain (chainKey c) in
      Resolved
        ({| msg_ratchetKey := pubKey (localRatchet s);
            msg_counter := counter c;
            msg_ciphertext := seal mk plaintext |},
         {| rootKey := root';
            localRatchet := localRatchet s;
            remoteRatchet := remoteRatchet s;
            previousRemoteRatchet := previousRemoteRatchet s;
            sendingChain :=
              Some {| chainKey := next; counter := counter c + 1;
                      skippedKeys := skippedKeys c |};
            receivingChains := receivingChains s;
            pendingHandshake := pendingHandshake s |})
  end.

(** Modelled from the spec: section 4.5, the receiver-initiated
    DH-ratchet step on a new remote ratchet key: a new receiving chain
    from the root key and DH(local ratchet private, new remote public),
    a fresh local ratchet key pair, and no sending chain until the next
    local send. *)
Definition dhRatchet (s : SessionState) (remote : PubKey) (seed : nat)
  : SessionState :=
  let '(root', ck) := mixRoot (rootKey s) (DH (privKey (localRatchet s)) remote) in
  {| rootKey := root';
     localRatchet := createKeyPair seed;
     remoteRatchet := Some remote;
     previousRemoteRatchet := remoteRatchet s;
     sendingChain := None;
     receivingChains := <[chainIndex remote := newChain ck]> (receivingChains s);
     pendingHandshake := pendingHandshake s |}.

(** Modelled from the spec: "a new ratchet public key different from
    the last recorded one" (section 4.5): not the recorded key and not
    the key of a retained receiving chain. *)
Definition isNewRatchetKey (s : SessionState) (k : PubKey) : bool :=
  bool_decide (remoteRatchet s ≠ Some k)
  && bool_decide (receivingChains s !! chainIndex k = None).

(** The bound on retained message keys ("default ~2000", section 4.7). *)
Definition maxSkippedKeys : N := 2000.

(** Advance a chain [steps] times, retaining each message key passed. *)
Fixpoint skipKeys (steps : nat) (c : Chain) : Chain :=
  match steps with
  | O => c
  | S k =>
      let '(next, mk) := advanceChain (chainKey c) in
      skipKeys k {| chainKey := next; counter := counter c + 1;
                    skippedKeys := <[counter c := mk]> (skippedKeys c) |}
  end.

(** Modelled from the spec: section 4.7, the message key for counter
    [n]: a retained key if [n] is below the chain's counter (consuming
    it), otherwise the chain is advanced to [n] retaining the keys
    passed; a consumed counter or an exceeded bound is
    [DuplicateOrExpiredMessage]. *)
Definition consumeKey (c : Chain) (n : N) : Outcome (Secret * Chain) :=
  if (n <? counter c)%N then
    match skippedKeys c !! n with
    | Some mk =>
        Resolved (mk, {| chainKey := chainKey c; counter := counter c;
                         skippedKeys := delete n (skippedKeys c) |})
    | None => Rejected DuplicateOrExpiredMessage
    end
  else if (maxSkippedKeys <? N.of_nat (size (skippedKeys c)) + (n - counter c))%N
  then Rejected DuplicateOrExpiredMessage
  else
    let c' := skipKeys (N.to_nat (n - counter c)) c in
    let '(next, mk) := advanceChain (chainKey c') in
    Resolved (mk, {| chainKey := next; counter := counter c' + 1;
                     skippedKeys := skippedKeys c' |}).

(** Modelled from the spec: section 4.7, the receive side: a DH-ratchet
    step if the message carries a new ratchet key, then the message key
    of its counter on the matching receiving chain, then the
    authenticated decryption. *)
Definition ratchetDecrypt (s : SessionState) (m : WhisperMessage) (seed : nat)
  : Outcome (list Byte.byte * SessionState) :=
  let s1 := if isNewRatchetKey s (msg_ratchetKey m)
            then dhRatchet s (msg_ratchetKey m) seed else s in
  match receivingChains s1 !! chainIndex (msg_ratchetKey m) with
  | None => Rejected AuthenticationFailure
  | Some c =>
      match consumeKey c (msg_counter m) with
      | Rejected e => Rejected e
      | Resolved (mk, c') =>
          match unseal mk (msg_ciphertext m) with
          | Rejected e => Rejected e
          | Resolved plaintext =>
              Resolved
                (plaintext,
                 {| rootKey := rootKey s1;
                    localRatchet := localRatchet s1;
                    remoteRatchet := remoteRatchet s1;
                    previousRemoteRatchet := previousRemoteRatchet s1;
                    sendingChain := sendingChain s1;
                    receivingChains :=
                      <[chainIndex (msg_ratchetKey m) := c']> (receivingChains s1);
                    pendingHandshake := pendingHandshake s1 |})
          end
      end
  end.

End Ratchet.

(** ** The world the managers run in *)

(** The manager object: [this.userId] and [this.store].  Its third
    field, [this.signalServerStore], is a reference to the one server
    object every manager of the demo is constructed with; that shared
    object lives in the [World], so a registration made through one
    manager is seen by the reads made through another. *)
Record SignalProtocolManager :=
  { userId : string; store : SignalProtocolStore }.

(** The calls made on the server store and on the protocol library, in
    the order they are made. *)
Inductive Call :=
| CallRegisterNewPreKeyBundle (user : string)
| CallGetPreKeyBundle (user : string)
| CallProcessPreKey (address : Address)
| CallEncrypt (address : Address)
| CallDecryptPreKeyWhisperMessage (address : Address)
| CallDecryptWhisperMessage (address : Address).

#[global] Instance Call_eq_dec : EqDecision Call.
Proof. solve_decision. Defined.

(** [entropy] names the next key pair to be generated;
    [unhandledRejections] collects the rejections of promises nobody
    awaits. *)
Record World :=
  { entropy : nat;
    signalServerStore : SignalServerStore;
    calls : list Call;
    unhandledRejections : list Error }.

Definition newWorld (server : SignalServerStore) : World :=
  {| entropy := 0; signalServerStore := server; calls := [];
     unhandledRejections := [] |}.

(** A task over a state [S]: it may change the state, and settles. *)
Definition Task (S A : Type) : Type := S -> Outcome A * S.

Definition ret {S A} (a : A) : Task S A := fun st => (Resolved a, st).

Definition bind {S A B} (c : Task S A) (k : A -> Task S B) : Task S B :=
  fun st =>
    match c st with
    | (Resolved a, st') => k a st'
    | (Rejected e, st') => (Rejected e, st')
    end.

(** An [async] method of a manager runs on the manager and the world. *)
Definition Async (A : Type) : Type := Task (SignalProtocolManager * World) A.

Notation "x <- c ;; k" := (bind c (fun x => k))
  (at level 100, c at next level, right associativity).
Notation "c ;; k" := (bind c (fun _ => k))
  (at level 100, right associativity).

(** [await p]: the caller resumes with the outcome of [p]. *)
Definition await {S A} (p : Task S A) : Task S A := p.

(** A call whose promise is not awaited: the caller goes on with the
    promise object itself; the call still runs, and a rejection of it
    reaches nobody. *)
Definition unawaited {A} (p : Async A) : Async JsValue :=
  fun st =>
    match p st with
    | (Resolved _, st') => (Resolved VPromise, st')
    | (Rejected e, (m, w)) =>
        (Resolved VPromise,
         (m, {| entropy := entropy w;
                signalServerStore := signalServerStore w;
                calls := calls w;
                unhandledRejections := unhandledRejections w ++ [e] |}))
    end.

Definition settle {A} (o : Outcome A) : Async A := fun st => (o, st).

Definition fresh : Async nat :=
  fun '(m, w) =>
    (Resolved (entropy w),
     (m, {| entropy := S (entropy w);
            signalServerStore := signalServerStore w;
            calls := calls w;
            unhandledRejections := unhandledRejections w |})).

Definition record (c : Call) : Async unit :=
  fun '(m, w) =>
    (Resolved tt,
     (m, {| entropy := entropy w;
            signalServerStore := signalServerStore w;
            calls := calls w ++ [c];
            unhandledRejections := unhandledRejections w |})).

Definition thisUserId : Async string :=
  fun '(m, w) => (Resolved (userId m), (m, w)).

(** A read of [this.store]. *)
Definition reading {A} (f : SignalProtocolStore -> Outcome A) : Async A :=
  fun '(m, w) => (f (store m), (m, w)).

(** An operation on [this.store] that persists all of its writes or, if
    it fails, none (section 5: atomic commit per operation). *)
Definition atomically {A}
    (f : SignalProtocolStore -> Outcome (A * SignalProtocolStore)) : Async A :=
  fun '(m, w) =>
    match f (store m) with
    | Resolved (a, s') => (Resolved a, ({| userId := userId m; store := s' |}, w))
    | Rejected e => (Rejected e, (m, w))
    end.

Definition writing (f : SignalProtocolStore -> SignalProtocolStore) : Async unit :=
  atomically (fun s => Resolved (tt, f s)).

(** [this.store.put(key, value)] *)
Definition put (key : string) (value : StoreValue) : Async unit :=
  atomically (fun s =>
    match KeyStore.put key value s with
    | Resolved s' => Resolved (tt, s')
    | Rejected e => Rejected e
    end).

(** The two methods of the shared server object, as called through
    [this.signalServerStore]. *)
Module Server.

Definition registerNewPreKeyBundle (user : string) (b : PreKeyBundle) : Async unit :=
  fun '(m, w) =>
    (Resolved tt,
     (m, {| entropy := entropy w;
            signalServerStore :=
              registerNewPreKeyBundle user b (signalServerStore w);
            calls := calls w ++ [CallRegisterNewPreKeyBundle user];
            unhandledRejections := unhandledRejections w |})).

Definition getPreKeyBundle (user : string) : Async JsValue :=
  fun '(m, w) =>
    (Resolved (getPreKeyBundle user (signalServerStore w)),
     (m, {| entropy := entropy w;
            signalServerStore := signalServerStore w;
            calls := calls w ++ [CallGetPreKeyBundle user];
            unhandledRejections := unhandledRejections w |})).

End Server.

(** ** The protocol library as the demo calls it (modelled from the
    specification) *)

Module libsignal.

Import Ratchet.

(** Modelled from the spec: key generation of sections 3 and 4.2.  A
    generated key pair is a fresh one; a SignedPreKey carries the
    signature of its public key under the identity private key. *)
Module KeyHelper.

Definition generateIdentityKeyPair : Async KeyPair :=
  seed <- fresh ;; ret (createKeyPair seed).

Definition generateRegistrationId : Async N :=
  seed <- fresh ;; ret (N.of_nat seed).

Definition generatePreKey (keyId : N) : Async PreKeyRecord :=
  seed <- fresh ;;
  ret {| pre_keyId := keyId; pre_keyPair := createKeyPair seed |}.

Definition generateSignedPreKey (identity : KeyPair) (signedKeyId : N)
  : Async SignedPreKeyRecord :=
  seed <- fresh ;;
  let keyPair := createKeyPair seed in
  ret {| signed_keyId := signedKeyId;
         signed_keyPair := keyPair;
         signed_signature := Ed25519Sign (privKey identity) (pubKey keyPair) |}.

End KeyHelper.

(** Modelled from the spec: section 4.3, "process remote bundle".  The
    signature of the signed pre-key must verify against the bundle's
    identity key ([InvalidSignature] otherwise); the root key is agreed
    with a fresh ephemeral key pair; the new SessionState records the
    remote signed pre-key as the remote ratchet key and is persisted
    under the address, replacing what was there.  A value that is not a
    bundle object is a [TypeError]. *)
Definition processPreKeyOn (address : Address) (device : JsValue)
    (seedEphemeral seedRatchet : nat) (s : SignalProtocolStore)
  : Outcome (unit * SignalProtocolStore) :=
  match device with
  | VPreKeyBundle b =>
      match KeyStore.getIdentityKeyPair s, KeyStore.getLocalRegistrationId s with
      | Resolved ours, Resolved reg =>
          if Ed25519Verify (identityKey b) (spk_publicKey (signedPreKey b))
                           (spk_signature (signedPreKey b))
          then
            let ephemeral := createKeyPair seedEphemeral in
            Resolved
              (tt,
               KeyStore.storeSession address
                 {| rootKey := agreeInitiator ours ephemeral b;
                    localRatchet := createKeyPair seedRatchet;
                    remoteRatchet := Some (spk_publicKey (signedPreKey b));
                    previousRemoteRatchet := None;
                    sendingChain := None;
                    receivingChains := ∅;
                    pendingHandshake :=
                      Some {| hs_identityKey := pubKey ours;
                              hs_registrationId := reg;
                              hs_preKeyId := pk_keyId (preKey b);
                              hs_signedPreKeyId := spk_keyId (signedPreKey b);
                              hs_baseKey := pubKey ephemeral |} |}
                 s)
          else Rejected InvalidSignature
      | Rejected e, _ => Rejected e
      | _, Rejected e => Rejected e
      end
  | _ => Rejected TypeError
  end.

Definition withoutHandshake (x : SessionState) : SessionState :=
  {| rootKey := rootKey x;
     localRatchet := localRatchet x;
     remoteRatchet := remoteRatchet x;
     previousRemoteRatchet := previousRemoteRatchet x;
     sendingChain := sendingChain x;
     receivingChains := receivingChains x;
     pendingHandshake := None |}.

(** Modelled from the spec: section 4.6.  The session of the address is
    required; the first message after key agreement is a
    PREKEY_MESSAGE embedding the handshake, every later one an
    ORDINARY_MESSAGE. *)
Definition encryptOn (address : Address) (plaintext : list Byte.byte)
    (s : SignalProtocolStore) : Outcome (Envelope * SignalProtocolStore) :=
  match KeyStore.loadSession address s with
  | None => Rejected NoSession
  | Some x =>
      match ratchetEncrypt x plaintext with
      | Rejected e => Rejected e
      | Resolved (m, x') =>
          match pendingHandshake x' with
          | Some h =>
              Resolved ({| type := PREKEY_MESSAGE; body := PreKeyWhisperBody h m |},
                        KeyStore.storeSession address (withoutHandshake x') s)
          | None =>
              Resolved ({| type := ORDINARY_MESSAGE; body := WhisperBody m |},
                        KeyStore.storeSession address x' s)
          end
      end
  end.

(** Modelled from the spec: section 4.7, PREKEY_MESSAGE.  The local
    signed and one-time pre-keys named by the embedded IDs are looked up
    ([UnknownSignedPreKeyId], [UnknownPreKeyId]), the responder side of
    the agreement builds the SessionState, the embedded ordinary
    ciphertext is decrypted with it, the consumed one-time pre-key is
    deleted and the session persisted.  The specification describes
    the case where no SessionState exists; where one exists the
    handshake is processed all the same and the new state replaces it. *)
Definition decryptPreKeyWhisperMessageOn (address : Address) (b : Body)
    (seed : nat) (s : SignalProtocolStore)
  : Outcome (list Byte.byte * SignalProtocolStore) :=
  match b with
  | PreKeyWhisperBody h m =>
      match KeyStore.getIdentityKeyPair s with
      | Rejected e => Rejected e
      | Resolved ours =>
          match st_signedPreKeys s !! hs_signedPreKeyId h with
          | None => Rejected UnknownSignedPreKeyId
          | Some signedPre =>
              match st_preKeys s !! hs_preKeyId h with
              | None => Rejected UnknownPreKeyId
              | Some oneTime =>
                  match
                    ratchetDecrypt
                      {| rootKey := agreeResponder ours signedPre oneTime
                                      (hs_identityKey h) (hs_baseKey h);
                         localRatchet := signedPre;
                         remoteRatchet := None;
                         previousRemoteRatchet := None;
                         sendingChain := None;
                         receivingChains := ∅;
                         pendingHandshake := None |}
                      m seed
                  with
                  | Rejected e => Rejected e
                  | Resolved (plaintext, x) =>
                      Resolved
                        (plaintext,
                         KeyStore.storeSession address x
                           (KeyStore.removePreKey (hs_preKeyId h) s))
                  end
              end
          end
      end
  | WhisperBody _ => Rejected MalformedMessage
  end.

(** Modelled from the spec: section 4.7, ORDINARY_MESSAGE.  The
    SessionState of the address is located ([NoSession] if absent) and
    the message decrypted with it. *)
Definition decryptWhisperMessageOn (address : Address) (b : Body)
    (seed : nat) (s : SignalProtocolStore)
  : Outcome (list Byte.byte * SignalProtocolStore) :=
  match b with
  | WhisperBody m =>
      match KeyStore.loadSession address s with
      | None => Rejected NoSession
      | Some x =>
          match ratchetDecrypt x m seed with
          | Rejected e => Rejected e
          | Resolved (plaintext, x') =>
              Resolved (plaintext, KeyStore.storeSession address x' s)
          end
      end
  | PreKeyWhisperBody _ _ => Rejected MalformedMessage
  end.

(** [new libsignal.SessionBuilder(this.store, address)] and
    [new libsignal.SessionCipher(this.store, address)]: both act on the
    manager's own store, for one address. *)
Definition SessionBuilder (address : Address) : Address := address.
Definition SessionCipher (address : Address) : Address := address.

Definition processPreKey (sessionBuilder : Address) (device : JsValue)
  : Async unit :=
  record (CallProcessPreKey sessionBuilder) ;;
  seedEphemeral <- fresh ;;
  seedRatchet <- fresh ;;
  atomically (processPreKeyOn sessionBuilder device seedEphemeral seedRatchet).

Definition encrypt (cipher : Address) (plaintext : list Byte.byte)
  : Async Envelope :=
  record (CallEncrypt cipher) ;;
  atomically (encryptOn cipher plaintext).

Definition decryptPreKeyWhisperMessage (cipher : Address) (b : Body)
  : Async (list Byte.byte) :=
  record (CallDecryptPreKeyWhisperMessage cipher) ;;
  seed <- fresh ;;
  atomically (decryptPreKeyWhisperMessageOn cipher b seed).

Definition decryptWhisperMessage (cipher : Address) (b : Body)
  : Async (list Byte.byte) :=
  record (CallDecryptWhisperMessage cipher) ;;
  seed <- fresh ;;
  atomically (decryptWhisperMessageOn cipher b seed).

End libsignal.

(** ** The [util] helpers *)

(** helpers.js is not among the sources and the specification does not
    describe it, so the two helpers the demo calls are parameters:
    [util.toArrayBuffer] turns a message string into bytes,
    [util.toString] turns a value back into a string or throws, and on
    the bytes of a string it gives that string back.  What
    [util.toString] does on any other value is left open. *)
Class Util :=
  { util_toArrayBuffer : string -> list Byte.byte;
    util_toString : JsValue -> Outcome string;
    util_toString_toArrayBuffer :
      forall s, util_toString (VArrayBuffer (util_toArrayBuffer s)) = Resolved s }.

(** ** SignalProtocolManager (SignalProtocolDemo.js, lines 36 to 149) *)

Section Manager.

Context `{Util}.

(** [new SignalProtocolManager(userId, signalServerStore)], lines 37 to
    41; the server object is the one of the world. *)
Definition newSignalProtocolManager (user : string) : SignalProtocolManager :=
  {| userId := user; store := newSignalProtocolStore |}.

(** [_generateIdentityAsync()], lines 98 to 106. *)
Definition _generateIdentityAsync : Async unit :=
  results0 <- libsignal.KeyHelper.generateIdentityKeyPair ;;
  results1 <- libsignal.KeyHelper.generateRegistrationId ;;
  put "identityKey" (SKeyPair results0) ;;
  put "registrationId" (SNumber results1).

(** [_generatePreKeyBundleAsync(preKeyId, signedPreKeyId)], lines 115
    to 148. *)
Definition _generatePreKeyBundleAsync (preKeyId signedPreKeyId : N)
  : Async PreKeyBundle :=
  identity <- reading KeyStore.getIdentityKeyPair ;;
  registration <- reading KeyStore.getLocalRegistrationId ;;
  preKey' <- libsignal.KeyHelper.generatePreKey preKeyId ;;
  signedPreKey' <- libsignal.KeyHelper.generateSignedPreKey identity signedPreKeyId ;;
  writing (KeyStore.storePreKey preKeyId (pre_keyPair preKey')) ;;
  writing (KeyStore.storeSignedPreKey signedPreKeyId (signed_keyPair signedPreKey')) ;;
  ret {| identityKey := pubKey identity;
         registrationId := registration;
         preKey :=
           {| pk_keyId := preKeyId;
              pk_publicKey := pubKey (pre_keyPair preKey') |};
         signedPreKey :=
           {| spk_keyId := signedPreKeyId;
              spk_publicKey := pubKey (signed_keyPair signedPreKey');
              spk_signature := signed_signature signedPreKey' |} |}.

(** [initializeAsync()], lines 46 to 52. *)
Definition initializeAsync : Async unit :=
  await _generateIdentityAsync ;;
  preKeyBundle <- await (_generatePreKeyBundleAsync 123 456) ;;
  user <- thisUserId ;;
  Server.registerNewPreKeyBundle user preKeyBundle.

(** [encryptMessageAsync(remoteUserId, message)], lines 60 to 71. *)
Definition encryptMessageAsync (remoteUserId : string) (message : string)
  : Async Envelope :=
  let address := SignalProtocolAddress remoteUserId 123 in
  let sessionBuilder := libsignal.SessionBuilder address in
  remoteUserPreKey <- Server.getPreKeyBundle remoteUserId ;;
  await (libsignal.processPreKey sessionBuilder remoteUserPreKey) ;;
  let cipher := libsignal.SessionCipher address in
  cipherText <- await (libsignal.encrypt cipher (util_toArrayBuffer message)) ;;
  ret cipherText.

(** [decryptMessageAsync(remoteUserId, cipherText)], lines 80 to 93.
    The pre-key branch awaits the library's promise (line 87); the other
    branch passes the promise itself to [util.toString] (line 90). *)
Definition decryptMessageAsync (remoteUserId : string) (cipherText : Envelope)
  : Async string :=
  let address := SignalProtocolAddress remoteUserId 123 in
  let cipher := libsignal.SessionCipher address in
  let messageHasEmbeddedPreKeyBundle := (type cipherText =? 3)%Z in
  if messageHasEmbeddedPreKeyBundle then
    decryptedMessage <-
      await (libsignal.decryptPreKeyWhisperMessage cipher (body cipherText)) ;;
    settle (util_toString (VArrayBuffer decryptedMessage))
  else
    decryptedMessage <-
      unawaited (libsignal.decryptWhisperMessage cipher (body cipherText)) ;;
    settle (util_toString decryptedMessage).

(** ** runDemo (SignalProtocolDemo.js, lines 154 to 184) *)

(** The two managers of the demo and the world they share. *)
Record Demo :=
  { signalProtocolManagerUser1 : SignalProtocolManager;
    signalProtocolManagerUser2 : SignalProtocolManager;
    world : World }.

Definition asUser1 {A} (p : Async A) : Task Demo A :=
  fun d =>
    match p (signalProtocolManagerUser1 d, world d) with
    | (o, (m, w)) =>
        (o, {| signalProtocolManagerUser1 := m;
               signalProtocolManagerUser2 := signalProtocolManagerUser2 d;
               world := w |})
    end.

Definition asUser2 {A} (p : Async A) : Task Demo A :=
  fun d =>
    match p (signalProtocolManagerUser2 d, world d) with
    | (o, (m, w)) =>
        (o, {| signalProtocolManagerUser1 := signalProtocolManagerUser1 d;
               signalProtocolManagerUser2 := m;
               world := w |})
    end.

(** What the demo shows in its alerts. *)
Record DemoResult :=
  { encryptedMessage : Envelope;
    decryptedMessage : string;
    encryptedMessage2 : Envelope;
    decryptedMessage2 : string }.

Definition user1 : string := "user1@domain.cc".
Definition user2 : string := "user2@domain.cc".

(** Lines 158 to 161: one server object, two managers constructed with it. *)
Definition newDemo : Demo :=
  let dummySignalServer := newSignalServerStore in
  {| signalProtocolManagerUser1 := newSignalProtocolManager user1;
     signalProtocolManagerUser2 := newSignalProtocolManager user2;
     world := newWorld dummySignalServer |}.

(** The two initialisations of line 163 touch different managers and
    register under different user IDs; they are run one after the other. *)
Definition runDemoFrom : Task Demo DemoResult :=
  await (asUser1 initializeAsync) ;;
  await (asUser2 initializeAsync) ;;
  let message := "Hello User 2 !" in
  encrypted <- await (asUser1 (encryptMessageAsync user2 message)) ;;
  decrypted <- await (asUser2 (decryptMessageAsync user1 encrypted)) ;;
  let message2 := "What is up user 1?" in
  encrypted2 <- await (asUser2 (encryptMessageAsync user1 message2)) ;;
  decrypted2 <- await (asUser1 (decryptMessageAsync user2 encrypted2)) ;;
  ret {| encryptedMessage := encrypted;
         decryptedMessage := decrypted;
         encryptedMessage2 := encrypted2;
         decryptedMessage2 := decrypted2 |}.

Definition runDemo : Outcome DemoResult * Demo := runDemoFrom newDemo.

(** A caller that catches the rejection of a task. *)
Definition attempt {S A} (p : Task S A) : Task S (Outcome A) :=
  fun st => let '(o, st') := p st in (Resolved o, st').

(** The demo's exchange with a second message in the same direction:
    user 1 sends [first] and then [second] to user 2, who decrypts each
    on arrival. *)
Definition twoMessagesFrom (first second : string)
  : Task Demo (Outcome string * Envelope * Outcome string) :=
  await (asUser1 initializeAsync) ;;
  await (asUser2 initializeAsync) ;;
  encrypted1 <- await (asUser1 (encryptMessageAsync user2 first)) ;;
  decrypted1 <- attempt (asUser2 (decryptMessageAsync user1 encrypted1)) ;;
  encrypted2 <- await (asUser1 (encryptMessageAsync user2 second)) ;;
  decrypted2 <- attempt (asUser2 (decryptMessageAsync user1 encrypted2)) ;;
  ret (decrypted1, encrypted2, decrypted2).

(** The demo up to and including the first encryption. *)
Definition firstMessageFrom (message : string) : Task Demo Envelope :=
  await (asUser1 initializeAsync) ;;
  await (asUser2 initializeAsync) ;;
  await (asUser1 (encryptMessageAsync user2 message)).

(** The exchange the library allows once both sides hold a session:
    after the first message, user 2 replies through the session cipher
    alone, without a bundle, and user 1 awaits the library's ordinary
    decryption. *)
Definition replyOnSessionFrom (message reply : string)
  : Task Demo (Envelope * list Byte.byte) :=
  encrypted <- firstMessageFrom message ;;
  await (asUser2 (decryptMessageAsync user1 encrypted)) ;;
  let cipher2 := libsignal.SessionCipher (SignalProtocolAddress user1 123) in
  encrypted2 <- await (asUser2 (libsignal.encrypt cipher2 (util_toArrayBuffer reply))) ;;
  let cipher1 := libsignal.SessionCipher (SignalProtocolAddress user2 123) in
  decrypted2 <- await (asUser1 (libsignal.decryptWhisperMessage cipher1 (body encrypted2))) ;;
  ret (encrypted2, decrypted2).

(** Any call a user of the two managers can make. *)
Inductive ManagerCall :=
| DoInitialize
| DoEncrypt (remoteUserId : string) (message : string)
| DoDecrypt (remoteUserId : string) (cipherText : Envelope).

Definition perform (c : ManagerCall) : Async unit :=
  match c with
  | DoInitialize => initializeAsync
  | DoEncrypt remoteUserId message =>
      _ <- encryptMessageAsync remoteUserId message ;; ret tt
  | DoDecrypt remoteUserId cipherText =>
      _ <- decryptMessageAsync remoteUserId cipherText ;; ret tt
  end.

(** One call by user 1 ([true]) or user 2 ([false]); the caller goes on
    whether the call resolved or not. *)
Definition step (d : Demo) (c : bool * ManagerCall) : Demo :=
  snd ((if c.1 then asUser1 (perform c.2) else asUser2 (perform c.2)) d).

Definition runCalls (cs : list (bool * ManagerCall)) (d : Demo) : Demo :=
  foldl step d cs.

End Manager.

(** An instance of the helpers: characters and bytes correspond one to
    one, and [toString] of anything that is not a buffer throws. *)
Definition binaryToString (v : JsValue) : Outcome string :=
  match v with
  | VArrayBuffer bytes => Resolved (String.string_of_list_byte bytes)
  | _ => Rejected TypeError
  end.

Definition binaryUtil : Util :=
  {| util_toArrayBuffer := String.list_byte_of_string;
     util_toString := binaryToString;
     util_toString_toArrayBuffer :=
       fun s => f_equal Resolved (String.string_of_list_byte_of_string s) |}.

(** ** Vocabulary of the properties *)

(** The store after a history of registrations, oldest first. *)
Definition registerAll (h : list (string * PreKeyBundle)) (s : SignalServerStore)
  : SignalServerStore :=
  foldl (fun acc ub => registerNewPreKeyBundle ub.1 ub.2 acc) s h.

(** No assignment creates an own property named [__proto__]. *)
Definition noOwnProto (s : SignalServerStore) : Prop :=
  own s !! "__proto__" = None.


(** The address a library call was made for. *)
Definition addressOf (c : Call) : option Address :=
  match c with
  | CallProcessPreKey a
  | CallEncrypt a
  | CallDecryptPreKeyWhisperMessage a
  | CallDecryptWhisperMessage a => Some a
  | CallRegisterNewPreKeyBundle _
  | CallGetPreKeyBundle _ => None
  end.

Definition onDevice123 (c : Call) : Prop :=
  match addressOf c with
  | Some a => a.2 = 123%Z
  | None => True
  end.

(** Every session of the store is keyed by an address of device 123. *)
Definition sessionsOnDevice123 (s : SignalProtocolStore) : Prop :=
  map_Forall (fun (a : string * Z) (_ : SessionState) => a.2 = 123%Z)
             (st_sessions s).

Definition managerOnDevice123 (st : SignalProtocolManager * World) : Prop :=
  sessionsOnDevice123 (store st.1) /\ Forall onDevice123 (calls st.2).

Definition demoOnDevice123 (d : Demo) : Prop :=
  sessionsOnDevice123 (store (signalProtocolManagerUser1 d))
  /\ sessionsOnDevice123 (store (signalProtocolManagerUser2 d))
  /\ Forall onDevice123 (calls (world d)).

(** What a call on a manager may touch when it is made for address
    [a]: only the session stored under [a], and the library calls it
    adds to the log are made for [a]. *)
Definition confinedTo (a : Address)
    (st st' : SignalProtocolManager * World) : Prop :=
  (forall a', a' <> a ->
     st_sessions (store st'.1) !! a' = st_sessions (store st.1) !! a')
  /\ exists new,
       calls st'.2 = calls st.2 ++ new
       /\ Forall (fun c => forall a', addressOf c = Some a' -> a' = a) new.

(** ** Vocabulary of the further properties *)

(** The store holds a generated identity key pair (both halves of one
    seed) and a registration ID: what [_generateIdentityAsync] leaves. *)
Definition hasIdentity (s : SignalProtocolStore) : Prop :=
  (exists seed, st_identityKey s = Some (createKeyPair seed))
  /\ is_Some (st_registrationId s).

(** The store holds the private halves of the keys that bundle [b]
    publishes, under the IDs the bundle names, and the bundle's
    signature is the one of its identity over its signed pre-key. *)
Definition holdsKeysOf (s : SignalProtocolStore) (b : PreKeyBundle) : Prop :=
  exists idSeed preSeed signedSeed,
    st_identityKey s = Some (createKeyPair idSeed)
    /\ st_preKeys s !! pk_keyId (preKey b) = Some (createKeyPair preSeed)
    /\ st_signedPreKeys s !! spk_keyId (signedPreKey b)
       = Some (createKeyPair signedSeed)
    /\ identityKey b = Pub idSeed
    /\ pk_publicKey (preKey b) = Pub preSeed
    /\ spk_publicKey (signedPreKey b) = Pub signedSeed
    /\ spk_signature (signedPreKey b) = Sig idSeed (Pub signedSeed).

(** The one-time pre-key ID a type-3 envelope names, if its body is a
    pre-key message. *)
Definition namedPreKey (c : Envelope) : option N :=
  match body c with
  | PreKeyWhisperBody h _ => Some (hs_preKeyId h)
  | WhisperBody _ => None
  end.

Section Conversations.

Context `{Util}.

(** The body of [runDemo] for the two managers of a [Demo], whatever
    their user IDs and stores, and for any two messages: both log on,
    the first sends [message], the second decrypts it and sends
    [reply], the first decrypts that. *)
Definition conversation (message reply : string) : Task Demo DemoResult :=
  fun d =>
    let a := userId (signalProtocolManagerUser1 d) in
    let b := userId (signalProtocolManagerUser2 d) in
    (await (asUser1 initializeAsync) ;;
     await (asUser2 initializeAsync) ;;
     encrypted <- await (asUser1 (encryptMessageAsync b message)) ;;
     decrypted <- await (asUser2 (decryptMessageAsync a encrypted)) ;;
     encrypted2 <- await (asUser2 (encryptMessageAsync a reply)) ;;
     decrypted2 <- await (asUser1 (decryptMessageAsync b encrypted2)) ;;
     ret {| encryptedMessage := encrypted;
            decryptedMessage := decrypted;
            encryptedMessage2 := encrypted2;
            decryptedMessage2 := decrypted2 |}) d.

(** A sequence of calls on one manager; the caller goes on after a
    rejection. *)
Definition performAll (cs : list ManagerCall)
    (st : SignalProtocolManager * World) : SignalProtocolManager * World :=
  foldl (fun acc c => (perform c acc).2) st cs.

End Conversations.

Definition isMessaging (c : ManagerCall) : Prop := c <> DoInitialize.

(** A bundle as a manager publishes it, for the concrete instances. *)
Definition sampleBundle : PreKeyBundle :=
  {| identityKey := Pub 0; registrationId := 1;
     preKey := {| pk_keyId := 123; pk_publicKey := Pub 2 |};
     signedPreKey := {| spk_keyId := 456; spk_publicKey := Pub 3;
                        spk_signature := Sig 0 (Pub 3) |} |}.

(** ** Two encryptions in flight *)




Section Concurrency.

Context `{Util}.









End Concurrency.







(** * Properties *)

(** ** The server store *)

Lemma noOwnProto_new : noOwnProto newSignalServerStore.
Proof. reflexivity. Qed.

Lemma noOwnProto_register u b s :
  noOwnProto s -> noOwnProto (registerNewPreKeyBundle u b s).
Proof.
  unfold noOwnProto, registerNewPreKeyBundle, objectSet.
  destruct (String.eqb_spec u "__proto__") as [->|Hne]; simpl; [done|].
  intros Hs. by rewrite lookup_insert_ne.
Qed.

Lemma noOwnProto_registerAll h s :
  noOwnProto s -> noOwnProto (registerAll h s).
Proof.
  revert s. induction h as [|[u b] h IH]; intros s Hs; [done|].
  apply IH, noOwnProto_register, Hs.
Qed.

Lemma own_register_other u v b s :
  u <> v -> own (registerNewPreKeyBundle v b s) !! u = own s !! u.
Proof.
  intros Hne. unfold registerNewPreKeyBundle, objectSet.
  destruct (String.eqb v "__proto__"); simpl; [done|].
  by rewrite lookup_insert_ne.
Qed.

Lemma own_registerAll_unregistered h u s :
  u ∉ h.*1 -> own (registerAll h s) !! u = own s !! u.
Proof.
  revert s. induction h as [|[v b] h IH]; intros s Hu; [done|].
  simpl in Hu. apply not_elem_of_cons in Hu as [Hne Hu].
  simpl. rewrite IH by done. by apply own_register_other.
Qed.

Lemma proto_register_other v b s :
  v <> "__proto__" -> proto (registerNewPreKeyBundle v b s) = proto s.
Proof.
  intros Hne. unfold registerNewPreKeyBundle, objectSet.
  by destruct (String.eqb_spec v "__proto__").
Qed.

Lemma proto_registerAll_untouched h s :
  "__proto__" ∉ h.*1 -> proto (registerAll h s) = proto s.
Proof.
  revert s. induction h as [|[v b] h IH]; intros s Hu; [done|].
  simpl in Hu. apply not_elem_of_cons in Hu as [Hne Hu].
  simpl. rewrite IH by done. by apply proto_register_other.
Qed.

Lemma bundleField_None p u : u ∉ bundleFieldNames -> bundleField p u = None.
Proof.
  unfold bundleFieldNames, bundleField. intros Hu.
  repeat (apply not_elem_of_cons in Hu as [? Hu]).
  repeat match goal with
         | |- context [String.eqb u ?k] =>
             destruct (String.eqb_spec u k); [congruence|]
         end.
  reflexivity.
Qed.

Lemma objectPrototypeGet_undefined r u :
  u ∉ objectPrototypeNames -> objectPrototypeGet r u = VUndefined.
Proof.
  intros Hu. unfold objectPrototypeGet.
  destruct (String.eqb_spec u "__proto__") as [->|_].
  - exfalso. apply Hu. unfold objectPrototypeNames. set_solver.
  - by rewrite bool_decide_eq_false_2.
Qed.

(** A bundle registered under [u] is what a read of [u] gives, on every
    store without an own [__proto__], whatever [u] is. *)
Lemma getPreKeyBundle_registered u b s :
  noOwnProto s ->
  getPreKeyBundle u (registerNewPreKeyBundle u b s) = VPreKeyBundle b.
Proof.
  unfold noOwnProto, getPreKeyBundle, registerNewPreKeyBundle, objectSet, objectGet.
  intros Hs. destruct (String.eqb_spec u "__proto__") as [->|Hne]; simpl.
  - by rewrite Hs.
  - by rewrite lookup_insert_eq.
Qed.

(** A registration under another user ID does not disturb the read. *)
Lemma getPreKeyBundle_registered_other u v b s :
  u <> v -> is_Some (own s !! u) ->
  getPreKeyBundle u (registerNewPreKeyBundle v b s) = getPreKeyBundle u s.
Proof.
  intros Hne [x Hx]. unfold getPreKeyBundle, objectGet.
  by rewrite own_register_other, Hx.
Qed.

(** C10, the claim as stated fails: on a server store on which nothing
    was ever registered, the read of the user ID "toString" is not
    [undefined] but the method every object inherits under that name. *)
Lemma getPreKeyBundle_unregistered_inherited :
  getPreKeyBundle "toString" newSignalServerStore = VFunction "toString"
  /\ getPreKeyBundle "toString" newSignalServerStore <> VUndefined.
Proof. split; [reflexivity | discriminate]. Qed.

(** C10 (amended): after any history of registrations,
    [getPreKeyBundle u] following [registerNewPreKeyBundle u b] gives
    exactly [b], so a later registration replaces an earlier one; and a
    user ID that was never registered reads as [undefined] provided it
    is not a property name inherited from [Object.prototype] and, if a
    bundle was registered under [__proto__], is not the name of a bundle
    field. *)
Theorem getPreKeyBundle_register_spec
    (h : list (string * PreKeyBundle)) (u : string) (b : PreKeyBundle) :
  getPreKeyBundle u
    (registerNewPreKeyBundle u b (registerAll h newSignalServerStore))
  = VPreKeyBundle b
  /\ (u ∉ h.*1 ->
      u ∉ objectPrototypeNames ->
      "__proto__" ∉ h.*1 \/ u ∉ bundleFieldNames ->
      getPreKeyBundle u (registerAll h newSignalServerStore) = VUndefined).
Proof.
  split.
  - apply getPreKeyBundle_registered, noOwnProto_registerAll, noOwnProto_new.
  - intros Hu Hnames Hfields. unfold getPreKeyBundle, objectGet.
    rewrite own_registerAll_unregistered by done. simpl.
    rewrite lookup_empty.
    destruct Hfields as [Hp|Hf].
    + rewrite proto_registerAll_untouched by done. simpl.
      by apply objectPrototypeGet_undefined.
    + destruct (proto _); [|by apply objectPrototypeGet_undefined].
      rewrite bundleField_None by done.
      by apply objectPrototypeGet_undefined.
Qed.

(** ** The library model: frames and key agreement *)

Lemma DH_comm a b : DH (Priv a) (Pub b) = DH (Priv b) (Pub a).
Proof. simpl. by rewrite Nat.min_comm, Nat.max_comm. Qed.

(** Both sides of the handshake derive the same root key from each
    other's public halves. *)
Lemma agree_same (idA ephA idB spkB otkB : nat) (reg pkId spkId : N) sig :
  Ratchet.agreeResponder (createKeyPair idB) (createKeyPair spkB)
      (createKeyPair otkB) (Pub idA) (Pub ephA)
  = Ratchet.agreeInitiator (createKeyPair idA) (createKeyPair ephA)
      {| identityKey := Pub idB; registrationId := reg;
         preKey := {| pk_keyId := pkId; pk_publicKey := Pub otkB |};
         signedPreKey := {| spk_keyId := spkId; spk_publicKey := Pub spkB;
                            spk_signature := sig |} |}.
Proof.
  unfold Ratchet.agreeResponder, Ratchet.agreeInitiator. simpl.
  by rewrite (Nat.min_comm spkB idA), (Nat.max_comm spkB idA),
             (Nat.min_comm idB ephA), (Nat.max_comm idB ephA),
             (Nat.min_comm spkB ephA), (Nat.max_comm spkB ephA),
             (Nat.min_comm otkB ephA), (Nat.max_comm otkB ephA).
Qed.

(** A signed pre-key generated for an identity verifies against it. *)
Lemma generated_signature_verifies (id k : nat) :
  Ed25519Verify (pubKey (createKeyPair id)) (pubKey (createKeyPair k))
    (Ed25519Sign (privKey (createKeyPair id)) (pubKey (createKeyPair k))) = true.
Proof. simpl. by apply bool_decide_eq_true_2. Qed.

(** The first message of a conversation, on the library alone: an
    initiator holding its identity processes the bundle of a responder
    that holds the matching identity, one-time and signed pre-keys; the
    message it then encrypts is a PREKEY_MESSAGE, which the responder
    decrypts to the plaintext, consuming the one-time pre-key and
    storing a session. *)
Lemma prekey_round_trip
    (sA sB : SignalProtocolStore) (toB fromA : Address)
    (idA idB otk spk eSeed rSeed seedB : nat) (regA regB pkId spkId : N)
    (plaintext : list Byte.byte) :
  st_identityKey sA = Some (createKeyPair idA) ->
  st_registrationId sA = Some regA ->
  st_identityKey sB = Some (createKeyPair idB) ->
  st_preKeys sB !! pkId = Some (createKeyPair otk) ->
  st_signedPreKeys sB !! spkId = Some (createKeyPair spk) ->
  let bundle :=
    {| identityKey := Pub idB; registrationId := regB;
       preKey := {| pk_keyId := pkId; pk_publicKey := Pub otk |};
       signedPreKey := {| spk_keyId := spkId; spk_publicKey := Pub spk;
                          spk_signature := Sig idB (Pub spk) |} |} in
  exists sA' sA'' envelope sB',
    libsignal.processPreKeyOn toB (VPreKeyBundle bundle) eSeed rSeed sA
      = Resolved (tt, sA')
    /\ libsignal.encryptOn toB plaintext sA' = Resolved (envelope, sA'')
    /\ type envelope = PREKEY_MESSAGE
    /\ libsignal.decryptPreKeyWhisperMessageOn fromA (body envelope) seedB sB
       = Resolved (plaintext, sB')
    /\ st_preKeys sB' !! pkId = None
    /\ is_Some (st_sessions sB' !! fromA).
Proof.
  intros HidA HregA HidB Hotk Hspk. cbv zeta.
  unfold libsignal.processPreKeyOn, KeyStore.getIdentityKeyPair,
    KeyStore.getLocalRegistrationId.
  rewrite HidA, HregA. simpl.
  rewrite bool_decide_eq_true_2 by done.
  eexists _, _, _, _. split; [reflexivity|].
  unfold libsignal.encryptOn, KeyStore.loadSession. simpl.
  rewrite lookup_insert_eq. simpl.
  split; [reflexivity|]. split; [reflexivity|]. simpl.
  unfold KeyStore.getIdentityKeyPair. rewrite HidB, Hspk, Hotk.
  rewrite (agree_same idA eSeed idB spk otk regB pkId spkId (Sig idB (Pub spk))).
  unfold Ratchet.ratchetDecrypt, Ratchet.isNewRatchetKey. simpl.
  rewrite bool_decide_eq_true_2 by done.
  unfold Ratchet.dhRatchet. simpl. rewrite lookup_insert_eq.
  unfold Ratchet.consumeKey. simpl. rewrite map_size_empty. simpl.
  unfold unseal. simpl.
  rewrite (Nat.min_comm spk rSeed), (Nat.max_comm spk rSeed).
  rewrite bool_decide_eq_true_2 by done.
  split; [reflexivity|]. simpl. split.
  - apply lookup_delete_eq.
  - rewrite lookup_insert_eq. by eexists.
Qed.

(** A pre-key message naming a one-time pre-key the store no longer
    holds is rejected (section 8, "no key reuse"). *)
Lemma consumed_prekey_is_rejected a h inner seed s ours signedPre :
  st_identityKey s = Some ours ->
  st_signedPreKeys s !! hs_signedPreKeyId h = Some signedPre ->
  st_preKeys s !! hs_preKeyId h = None ->
  libsignal.decryptPreKeyWhisperMessageOn a (PreKeyWhisperBody h inner) seed s
  = Rejected UnknownPreKeyId.
Proof.
  intros Hid Hsigned Hpre. unfold libsignal.decryptPreKeyWhisperMessageOn,
    KeyStore.getIdentityKeyPair.
  by rewrite Hid, Hsigned, Hpre.
Qed.

Lemma processPreKeyOn_sessions a dev e r s u s' :
  libsignal.processPreKeyOn a dev e r s = Resolved (u, s') ->
  exists x, st_sessions s' = <[a := x]> (st_sessions s).
Proof.
  unfold libsignal.processPreKeyOn. intros Hrun.
  repeat case_match; simplify_eq; simpl; eauto.
Qed.

Lemma encryptOn_sessions a plaintext s c s' :
  libsignal.encryptOn a plaintext s = Resolved (c, s') ->
  exists x, st_sessions s' = <[a := x]> (st_sessions s).
Proof.
  unfold libsignal.encryptOn. intros Hrun.
  repeat case_match; simplify_eq; simpl; eauto.
Qed.

Lemma decryptPreKeyWhisperMessageOn_sessions a b seed s p s' :
  libsignal.decryptPreKeyWhisperMessageOn a b seed s = Resolved (p, s') ->
  exists x, st_sessions s' = <[a := x]> (st_sessions s).
Proof.
  unfold libsignal.decryptPreKeyWhisperMessageOn. intros Hrun.
  repeat case_match; simplify_eq; simpl; eauto.
Qed.

Lemma decryptWhisperMessageOn_sessions a b seed s p s' :
  libsignal.decryptWhisperMessageOn a b seed s = Resolved (p, s') ->
  exists x, st_sessions s' = <[a := x]> (st_sessions s).
Proof.
  unfold libsignal.decryptWhisperMessageOn. intros Hrun.
  repeat case_match; simplify_eq; simpl; eauto.
Qed.

(** ** Calls are confined to the address (remoteUserId, 123) *)

Lemma sessions_frame_insert (a a' : string * Z) (x : SessionState)
    (old new : gmap (string * Z) SessionState) :
  new = <[a := x]> old -> a' <> a -> new !! a' = old !! a'.
Proof. intros -> Hne. by rewrite lookup_insert_ne. Qed.

Lemma Forall_address_nil (a : Address) :
  Forall (fun c => forall a', addressOf c = Some a' -> a' = a) [].
Proof. constructor. Qed.

Lemma confinedTo_onDevice123 name st st' :
  confinedTo (name, 123%Z) st st' ->
  managerOnDevice123 st -> managerOnDevice123 st'.
Proof.
  intros [Hsessions (new & Hcalls & Hnew)] [Hs Hc]. split.
  - intros a x Hx. destruct (decide (a = (name, 123%Z))) as [->|Hne]; [done|].
    rewrite Hsessions in Hx by done. by apply (Hs a x).
  - rewrite Hcalls. apply Forall_app. split; [done|].
    eapply Forall_impl; [exact Hnew|]. intros c Hca. unfold onDevice123.
    destruct (addressOf c) as [a|] eqn:E; [|done].
    by rewrite (Hca a E).
Qed.

Section Confinement.

Context `{Util}.

Lemma encryptMessageAsync_confined remote message st :
  confinedTo (remote, 123%Z) st (encryptMessageAsync remote message st).2.
Proof.
  destruct st as [m w].
  unfold confinedTo, encryptMessageAsync, await, libsignal.processPreKey, libsignal.encrypt,
    libsignal.SessionBuilder, libsignal.SessionCipher, SignalProtocolAddress,
    Server.getPreKeyBundle, bind, record, fresh, atomically, ret.
  simpl.
  destruct (libsignal.processPreKeyOn _ _ _ _ _) as [[u s1]|e] eqn:E1; simpl.
  - apply processPreKeyOn_sessions in E1 as [x1 E1].
    destruct (libsignal.encryptOn _ _ _) as [[c s2]|e] eqn:E2; simpl.
    + apply encryptOn_sessions in E2 as [x2 E2]. split.
      * intros a' Hne. rewrite E2, E1. by rewrite !lookup_insert_ne.
      * eexists. rewrite <- !app_assoc. split; [reflexivity|].
        repeat constructor; simpl; intros; by simplify_eq.
    + split.
      * intros a' Hne. rewrite E1. by rewrite lookup_insert_ne.
      * eexists. rewrite <- !app_assoc. split; [reflexivity|].
        repeat constructor; simpl; intros; by simplify_eq.
  - split; [done|].
    eexists. rewrite <- !app_assoc. split; [reflexivity|].
    repeat constructor; simpl; intros; by simplify_eq.
Qed.

Lemma decryptMessageAsync_confined remote cipherText st :
  confinedTo (remote, 123%Z) st (decryptMessageAsync remote cipherText st).2.
Proof.
  destruct st as [m w].
  unfold confinedTo, decryptMessageAsync, await, unawaited,
    libsignal.decryptPreKeyWhisperMessage, libsignal.decryptWhisperMessage,
    libsignal.SessionCipher, SignalProtocolAddress,
    bind, record, fresh, atomically, settle.
  destruct (type cipherText =? 3)%Z; simpl.
  - destruct (libsignal.decryptPreKeyWhisperMessageOn _ _ _ _) as [[p s1]|e] eqn:E1;
      simpl.
    + apply decryptPreKeyWhisperMessageOn_sessions in E1 as [x1 E1]. split.
      * intros a' Hne. rewrite E1. by rewrite lookup_insert_ne.
      * eexists. split; [reflexivity|].
        repeat constructor; simpl; intros; by simplify_eq.
    + split; [done|]. eexists. split; [reflexivity|].
      repeat constructor; simpl; intros; by simplify_eq.
  - destruct (libsignal.decryptWhisperMessageOn _ _ _ _) as [[p s1]|e] eqn:E1;
      simpl.
    + apply decryptWhisperMessageOn_sessions in E1 as [x1 E1]. split.
      * intros a' Hne. rewrite E1. by rewrite lookup_insert_ne.
      * eexists. split; [reflexivity|].
        repeat constructor; simpl; intros; by simplify_eq.
    + split; [done|]. eexists. split; [reflexivity|].
      repeat constructor; simpl; intros; by simplify_eq.
Qed.

End Confinement.

(** ** Initialisation and bundle generation *)

(** What [initializeAsync] does on any manager and world: it always
    resolves, having drawn four seeds (identity, registration ID,
    pre-key, signed pre-key). *)
Lemma initializeAsync_run m w :
  let e := entropy w in
  let bundle :=
    {| identityKey := Pub e;
       registrationId := N.of_nat (S e);
       preKey := {| pk_keyId := 123; pk_publicKey := Pub (S (S e)) |};
       signedPreKey :=
         {| spk_keyId := 456; spk_publicKey := Pub (S (S (S e)));
            spk_signature := Sig e (Pub (S (S (S e)))) |} |} in
  initializeAsync (m, w)
  = (Resolved tt,
     ({| userId := userId m;
         store :=
           {| st_identityKey := Some (createKeyPair e);
              st_registrationId := Some (N.of_nat (S e));
              st_preKeys := <[123%N := createKeyPair (S (S e))]> (st_preKeys (store m));
              st_signedPreKeys :=
                <[456%N := createKeyPair (S (S (S e)))]> (st_signedPreKeys (store m));
              st_sessions := st_sessions (store m) |} |},
      {| entropy := S (S (S (S e)));
         signalServerStore :=
           registerNewPreKeyBundle (userId m) bundle (signalServerStore w);
         calls := calls w ++ [CallRegisterNewPreKeyBundle (userId m)];
         unhandledRejections := unhandledRejections w |})).
Proof. reflexivity. Qed.

(** C9: whatever the user ID and the state of the manager,
    [initializeAsync] resolves and the bundle then published for that
    user ID on the server carries the pre-key ID 123 and the signed
    pre-key ID 456. *)
Theorem initializeAsync_registers_ids_123_456 (m : SignalProtocolManager) (w : World) :
  noOwnProto (signalServerStore w) ->
  exists m' w' b,
    initializeAsync (m, w) = (Resolved tt, (m', w'))
    /\ userId m' = userId m
    /\ getPreKeyBundle (userId m) (signalServerStore w') = VPreKeyBundle b
    /\ pk_keyId (preKey b) = 123%N
    /\ spk_keyId (signedPreKey b) = 456%N.
Proof.
  intros Hw. eexists _, _, _. split; [apply initializeAsync_run|].
  simpl. split; [done|].
  split; [by apply getPreKeyBundle_registered | done].
Qed.

(** The same on a new manager whose user ID is "__proto__", on a new
    server. *)
Lemma initializeAsync_registers_ids_123_456_witness :
  noOwnProto (signalServerStore (newWorld newSignalServerStore))
  /\ exists m' w' b,
       initializeAsync
         (newSignalProtocolManager "__proto__", newWorld newSignalServerStore)
       = (Resolved tt, (m', w'))
       /\ userId m' = "__proto__"
       /\ getPreKeyBundle "__proto__" (signalServerStore w') = VPreKeyBundle b
       /\ pk_keyId (preKey b) = 123%N
       /\ spk_keyId (signedPreKey b) = 456%N.
Proof.
  split; [reflexivity|].
  apply (initializeAsync_registers_ids_123_456
           (newSignalProtocolManager "__proto__") (newWorld newSignalServerStore)).
  reflexivity.
Defined.

(** C4: on a manager whose store holds the identity key pair and the
    registration ID, [_generatePreKeyBundleAsync(preKeyId,
    signedPreKeyId)] generates two distinct fresh key pairs, signs the
    public key of the second with the identity private key, persists
    the first as pre-key [preKeyId] and the second as signed pre-key
    [signedPreKeyId] and nothing else, and resolves with the bundle of
    the identity public key, the registration ID, the pre-key public key
    with its ID and the signed pre-key public key with its ID and
    signature. *)
Theorem generatePreKeyBundleAsync_spec (preKeyId signedPreKeyId : N)
    (m : SignalProtocolManager) (w : World) (ours : KeyPair) (registration : N) :
  st_identityKey (store m) = Some ours ->
  st_registrationId (store m) = Some registration ->
  let preKeyPair := createKeyPair (entropy w) in
  let signedKeyPair := createKeyPair (S (entropy w)) in
  let stored :=
    KeyStore.storeSignedPreKey signedPreKeyId signedKeyPair
      (KeyStore.storePreKey preKeyId preKeyPair (store m)) in
  _generatePreKeyBundleAsync preKeyId signedPreKeyId (m, w)
  = (Resolved
       {| identityKey := pubKey ours;
          registrationId := registration;
          preKey := {| pk_keyId := preKeyId; pk_publicKey := pubKey preKeyPair |};
          signedPreKey :=
            {| spk_keyId := signedPreKeyId;
               spk_publicKey := pubKey signedKeyPair;
               spk_signature := Ed25519Sign (privKey ours) (pubKey signedKeyPair) |} |},
     ({| userId := userId m; store := stored |},
      {| entropy := S (S (entropy w));
         signalServerStore := signalServerStore w;
         calls := calls w;
         unhandledRejections := unhandledRejections w |}))
  /\ preKeyPair <> signedKeyPair
  /\ st_preKeys stored !! preKeyId = Some preKeyPair
  /\ st_signedPreKeys stored !! signedPreKeyId = Some signedKeyPair
  /\ st_identityKey stored = Some ours
  /\ st_registrationId stored = Some registration
  /\ st_sessions stored = st_sessions (store m)
  /\ (forall i, i <> preKeyId -> st_preKeys stored !! i = st_preKeys (store m) !! i)
  /\ (forall i, i <> signedPreKeyId ->
        st_signedPreKeys stored !! i = st_signedPreKeys (store m) !! i).
Proof.
  intros Hid Hreg. cbv zeta. split; [|repeat split].
  - unfold _generatePreKeyBundleAsync, reading, bind, KeyStore.getIdentityKeyPair,
      KeyStore.getLocalRegistrationId. simpl. rewrite Hid, Hreg. reflexivity.
  - unfold createKeyPair. intros E. injection E as E. lia.
  - simpl. apply lookup_insert_eq.
  - simpl. apply lookup_insert_eq.
  - exact Hid.
  - exact Hreg.
  - intros i Hi. simpl. by rewrite lookup_insert_ne.
  - intros i Hi. simpl. by rewrite lookup_insert_ne.
Qed.

(** Bundle generation with both IDs equal to 7, on a store holding the
    identity of seed 0 and the registration ID 1. *)
Lemma generatePreKeyBundleAsync_spec_witness :
  exists b st,
    _generatePreKeyBundleAsync 7 7
      ({| userId := "alice";
          store := {| st_identityKey := Some (createKeyPair 0);
                      st_registrationId := Some 1%N;
                      st_preKeys := ∅; st_signedPreKeys := ∅;
                      st_sessions := ∅ |} |},
       {| entropy := 2; signalServerStore := newSignalServerStore;
          calls := []; unhandledRejections := [] |})
    = (Resolved b, st)
    /\ spk_signature (signedPreKey b) = Sig 0 (Pub 3)
    /\ st_preKeys (store st.1) !! 7%N = Some (createKeyPair 2)
    /\ st_signedPreKeys (store st.1) !! 7%N = Some (createKeyPair 3).
Proof.
  pose proof
    (generatePreKeyBundleAsync_spec 7 7
       {| userId := "alice";
          store := {| st_identityKey := Some (createKeyPair 0);
                      st_registrationId := Some 1%N;
                      st_preKeys := ∅; st_signedPreKeys := ∅;
                      st_sessions := ∅ |} |}
       {| entropy := 2; signalServerStore := newSignalServerStore;
          calls := []; unhandledRejections := [] |}
       (createKeyPair 0) 1%N eq_refl eq_refl) as (Hrun & _ & Hpre & Hsigned & _).
  eexists _, _. split; [exact Hrun|]. split; [reflexivity|].
  split; [exact Hpre | exact Hsigned].
Defined.

(** ** Decryption: dispatch on the envelope type *)

Section Decrypt.

Context `{Util}.

(** The branch of line 90 hands the caller [util.toString] of a pending
    promise, whatever the library's decryption comes to. *)
Lemma decryptMessageAsync_ordinary_outcome remote cipherText st :
  type cipherText <> PREKEY_MESSAGE ->
  (decryptMessageAsync remote cipherText st).1 = util_toString VPromise.
Proof.
  intros Hty. destruct st as [m w]. unfold decryptMessageAsync, PREKEY_MESSAGE in *.
  destruct (Z.eqb_spec (type cipherText) 3) as [E|_]; [done|].
  unfold unawaited, libsignal.decryptWhisperMessage, bind, record, fresh,
    atomically, settle. simpl.
  by destruct (libsignal.decryptWhisperMessageOn _ _ _ _) as [[p s']|e].
Qed.

(** C5: [decryptMessageAsync] makes exactly one library call, for the
    address (remoteUserId, 123): [decryptPreKeyWhisperMessage] when the
    envelope's type is 3 and [decryptWhisperMessage] for every other
    type; when the pre-key path resolves, a session is stored under that
    address, whether or not one was there before. *)
Theorem decryptMessageAsync_dispatch remote cipherText m w :
  let address := (remote, 123%Z) in
  let after := decryptMessageAsync remote cipherText (m, w) in
  (type cipherText = PREKEY_MESSAGE ->
     after
     = (decrypted <- libsignal.decryptPreKeyWhisperMessage address (body cipherText) ;;
        settle (util_toString (VArrayBuffer decrypted))) (m, w))
  /\ (type cipherText <> PREKEY_MESSAGE ->
     after
     = (promise <- unawaited (libsignal.decryptWhisperMessage address (body cipherText)) ;;
        settle (util_toString promise)) (m, w))
  /\ calls after.2.2
     = calls w ++ [if bool_decide (type cipherText = PREKEY_MESSAGE)
                   then CallDecryptPreKeyWhisperMessage address
                   else CallDecryptWhisperMessage address]
  /\ (type cipherText = PREKEY_MESSAGE ->
      forall plaintext m' w',
        after = (Resolved plaintext, (m', w')) ->
        is_Some (st_sessions (store m') !! address)).
Proof.
  cbv zeta. unfold decryptMessageAsync, PREKEY_MESSAGE, await,
    libsignal.SessionCipher, SignalProtocolAddress.
  destruct (Z.eqb_spec (type cipherText) 3) as [E|E].
  - rewrite bool_decide_eq_true_2 by done.
    split; [done|]. split; [done|].
    unfold libsignal.decryptPreKeyWhisperMessage, bind, record, fresh,
      atomically, settle. simpl.
    destruct (libsignal.decryptPreKeyWhisperMessageOn _ _ _ _)
      as [[p s']|e] eqn:Hrun; simpl.
    + split; [done|]. intros _ plaintext m' w' Hres. simplify_eq. simpl.
      apply decryptPreKeyWhisperMessageOn_sessions in Hrun as [x ->].
      rewrite lookup_insert_eq. by eexists.
    + split; [done|]. intros _ plaintext m' w' Hres. discriminate.
  - rewrite bool_decide_eq_false_2 by done.
    split; [done|]. split; [done|]. split; [|done].
    unfold unawaited, libsignal.decryptWhisperMessage, bind, record, fresh,
      atomically, settle. simpl.
    by destruct (libsignal.decryptWhisperMessageOn _ _ _ _) as [[p s']|e].
Qed.

(** C6 at its failing input: an ORDINARY_MESSAGE for a peer without a
    session.  The [NoSession] rejection of the library becomes an
    unhandled rejection; what the caller gets is [util.toString] of the
    promise, the same as when the decryption succeeds. *)
Theorem decryptMessageAsync_drops_NoSession remote (message : WhisperMessage) m w :
  st_sessions (store m) !! (remote, 123%Z) = None ->
  decryptMessageAsync remote
    {| type := ORDINARY_MESSAGE; body := WhisperBody message |} (m, w)
  = (util_toString VPromise,
     (m, {| entropy := S (entropy w);
            signalServerStore := signalServerStore w;
            calls := calls w ++ [CallDecryptWhisperMessage (remote, 123%Z)];
            unhandledRejections := unhandledRejections w ++ [NoSession] |})).
Proof.
  intros Hnone.
  unfold decryptMessageAsync, unawaited, libsignal.decryptWhisperMessage,
    libsignal.SessionCipher, SignalProtocolAddress, bind, record, fresh,
    atomically, settle. simpl.
  unfold KeyStore.loadSession. by rewrite Hnone.
Qed.

End Decrypt.

(** On a new manager, with helpers that throw on a promise: the caller
    sees the helpers' [TypeError], and [NoSession] is left unhandled. *)
Lemma decryptMessageAsync_drops_NoSession_witness :
  st_sessions (store (newSignalProtocolManager user1)) !! (user2, 123%Z) = None
  /\ (@decryptMessageAsync binaryUtil user2
        {| type := ORDINARY_MESSAGE;
           body := WhisperBody {| msg_ratchetKey := Pub 0; msg_counter := 0;
                                  msg_ciphertext := seal (DHOut 0 0) [] |} |}
        (newSignalProtocolManager user1, newWorld newSignalServerStore)).1
     = Rejected TypeError
  /\ unhandledRejections
       (@decryptMessageAsync binaryUtil user2
          {| type := ORDINARY_MESSAGE;
             body := WhisperBody {| msg_ratchetKey := Pub 0; msg_counter := 0;
                                    msg_ciphertext := seal (DHOut 0 0) [] |} |}
          (newSignalProtocolManager user1, newWorld newSignalServerStore)).2.2
     = [NoSession].
Proof.
  split; [reflexivity|].
  rewrite (@decryptMessageAsync_drops_NoSession binaryUtil user2
             {| msg_ratchetKey := Pub 0; msg_counter := 0;
                msg_ciphertext := seal (DHOut 0 0) [] |}
             (newSignalProtocolManager user1) (newWorld newSignalServerStore)
             eq_refl).
  split; reflexivity.
Defined.

(** ** Encryption: the bundle is fetched and processed on every call *)

Lemma processPreKeyOn_resolved a dev e r s u s' :
  libsignal.processPreKeyOn a dev e r s = Resolved (u, s') ->
  exists b ours reg,
    dev = VPreKeyBundle b
    /\ s' = KeyStore.storeSession a
              {| rootKey := Ratchet.agreeInitiator ours (createKeyPair e) b;
                 localRatchet := createKeyPair r;
                 remoteRatchet := Some (spk_publicKey (signedPreKey b));
                 previousRemoteRatchet := None;
                 sendingChain := None;
                 receivingChains := ∅;
                 pendingHandshake :=
                   Some {| hs_identityKey := pubKey ours;
                           hs_registrationId := reg;
                           hs_preKeyId := pk_keyId (preKey b);
                           hs_signedPreKeyId := spk_keyId (signedPreKey b);
                           hs_baseKey := Pub e |} |} s.
Proof.
  unfold libsignal.processPreKeyOn. intros Hrun.
  repeat case_match; simplify_eq. by eexists _, _, _.
Qed.

Section Encrypt.

Context `{Util}.

(** C3 at its failing input: a manager that already holds a session
    for the peer.  [encryptMessageAsync] still starts by fetching the
    peer's bundle from the server and handing it to [processPreKey]; if
    it resolves, the server did hold a bundle for the peer, the envelope
    is a PREKEY_MESSAGE and its chain counter is 0: the message comes
    from a session rebuilt from the bundle, not from an advance of the
    sending chain of the session that was there. *)
Theorem encryptMessageAsync_processes_bundle_again
    remote message m w (x : SessionState) :
  st_sessions (store m) !! (remote, 123%Z) = Some x ->
  (exists rest,
     calls (encryptMessageAsync remote message (m, w)).2.2
     = calls w ++ [CallGetPreKeyBundle remote; CallProcessPreKey (remote, 123%Z)]
               ++ rest)
  /\ (forall c m' w',
        encryptMessageAsync remote message (m, w) = (Resolved c, (m', w')) ->
        (exists b, getPreKeyBundle remote (signalServerStore w) = VPreKeyBundle b)
        /\ type c = PREKEY_MESSAGE
        /\ exists h inner, body c = PreKeyWhisperBody h inner
                           /\ msg_counter inner = 0%N).
Proof.
  intros _.
  unfold encryptMessageAsync, await, libsignal.processPreKey, libsignal.encrypt,
    libsignal.SessionBuilder, libsignal.SessionCipher, SignalProtocolAddress,
    Server.getPreKeyBundle, bind, record, fresh, atomically, ret.
  simpl.
  destruct (libsignal.processPreKeyOn _ _ _ _ _) as [[u s1]|e] eqn:E1; simpl.
  - apply processPreKeyOn_resolved in E1 as (b & ours & reg & Hdev & ->).
    unfold libsignal.encryptOn, KeyStore.loadSession. simpl.
    rewrite lookup_insert_eq. simpl. split.
    + eexists. rewrite <- !app_assoc. reflexivity.
    + intros c m' w' Hres. simplify_eq. simpl.
      split; [by eexists|]. split; [done|]. by eexists _, _.
  - split.
    + exists []. by rewrite <- !app_assoc.
    + intros c m' w' Hres. discriminate.
Qed.

(** ** Device 123 *)

Lemma initializeAsync_onDevice123 st :
  managerOnDevice123 st -> managerOnDevice123 (initializeAsync st).2.
Proof.
  destruct st as [m w]. intros [Hs Hc].
  rewrite initializeAsync_run. split; simpl; [exact Hs|].
  apply Forall_app. split; [done|]. by repeat constructor.
Qed.

Lemma discard_result_state {A} (p : Async A) st :
  (bind p (fun _ => ret tt) st).2 = (p st).2.
Proof. unfold bind, ret. by destruct (p st) as [[a|e] st']. Qed.

Lemma perform_onDevice123 c st :
  managerOnDevice123 st -> managerOnDevice123 (perform c st).2.
Proof.
  destruct c as [|remote message|remote cipherText]; simpl.
  - apply initializeAsync_onDevice123.
  - rewrite discard_result_state.
    apply confinedTo_onDevice123 with remote, encryptMessageAsync_confined.
  - rewrite discard_result_state.
    apply confinedTo_onDevice123 with remote, decryptMessageAsync_confined.
Qed.

Lemma step_onDevice123 d c : demoOnDevice123 d -> demoOnDevice123 (step d c).
Proof.
  intros (H1 & H2 & Hc). destruct c as [[|] c]; unfold step; simpl.
  - unfold asUser1.
    pose proof (perform_onDevice123 c (signalProtocolManagerUser1 d, world d)
                  (conj H1 Hc)) as Hp.
    destruct (perform c _) as [o [m w]]. destruct Hp as [Hm Hw]. by repeat split.
  - unfold asUser2.
    pose proof (perform_onDevice123 c (signalProtocolManagerUser2 d, world d)
                  (conj H2 Hc)) as Hp.
    destruct (perform c _) as [o [m w]]. destruct Hp as [Hm Hw]. by repeat split.
Qed.

Lemma runCalls_onDevice123 cs d :
  demoOnDevice123 d -> demoOnDevice123 (runCalls cs d).
Proof.
  revert d. induction cs as [|c cs IH]; intros d Hd; [done|].
  apply IH, step_onDevice123, Hd.
Qed.

Lemma newDemo_onDevice123 : demoOnDevice123 newDemo.
Proof.
  repeat split; try apply map_Forall_empty. constructor.
Qed.

(** Encrypting and decrypting leave the server's store as it is; only
    [initializeAsync] writes to it, so no reachable store has an own
    property named [__proto__]. *)
Lemma encryptMessageAsync_server remote message st :
  signalServerStore (encryptMessageAsync remote message st).2.2
  = signalServerStore st.2.
Proof.
  destruct st as [m w].
  unfold encryptMessageAsync, await, libsignal.processPreKey, libsignal.encrypt,
    Server.getPreKeyBundle, bind, record, fresh, atomically, ret.
  simpl.
  destruct (libsignal.processPreKeyOn _ _ _ _ _) as [[u s1]|e]; simpl; [|done].
  by destruct (libsignal.encryptOn _ _ _) as [[c s2]|e].
Qed.

Lemma decryptMessageAsync_server remote cipherText st :
  signalServerStore (decryptMessageAsync remote cipherText st).2.2
  = signalServerStore st.2.
Proof.
  destruct st as [m w].
  unfold decryptMessageAsync, await, unawaited,
    libsignal.decryptPreKeyWhisperMessage, libsignal.decryptWhisperMessage,
    bind, record, fresh, atomically, settle.
  destruct (type cipherText =? 3)%Z; simpl.
  - by destruct (libsignal.decryptPreKeyWhisperMessageOn _ _ _ _) as [[p s1]|e].
  - by destruct (libsignal.decryptWhisperMessageOn _ _ _ _) as [[p s1]|e].
Qed.

Lemma perform_noOwnProto c st :
  noOwnProto (signalServerStore st.2) ->
  noOwnProto (signalServerStore (perform c st).2.2).
Proof.
  destruct c as [|remote message|remote cipherText]; simpl; intros Hs.
  - destruct st as [m w]. rewrite initializeAsync_run. simpl.
    by apply noOwnProto_register.
  - by rewrite discard_result_state, encryptMessageAsync_server.
  - by rewrite discard_result_state, decryptMessageAsync_server.
Qed.

Lemma runCalls_noOwnProto cs d :
  noOwnProto (signalServerStore (world d)) ->
  noOwnProto (signalServerStore (world (runCalls cs d))).
Proof.
  revert d. induction cs as [|[[|] c] cs IH]; intros d Hd; [done| |];
    apply IH; unfold step; simpl.
  - unfold asUser1.
    pose proof (perform_noOwnProto c (signalProtocolManagerUser1 d, world d) Hd) as Hp.
    by destruct (perform c _) as [o [m w]].
  - unfold asUser2.
    pose proof (perform_noOwnProto c (signalProtocolManagerUser2 d, world d) Hd) as Hp.
    by destruct (perform c _) as [o [m w]].
Qed.

(** C7: for every remote user ID, what [encryptMessageAsync] and
    [decryptMessageAsync] do is confined to the address
    (remoteUserId, 123): the library calls they make are made for it and
    no session under another address changes.  Hence, after any
    sequence of calls on the two managers of the demo, every session of
    either manager is keyed by a device ID of 123, and so was every
    library call. *)
Theorem every_address_uses_device_123 :
  (forall remote message st,
     confinedTo (remote, 123%Z) st (encryptMessageAsync remote message st).2)
  /\ (forall remote cipherText st,
     confinedTo (remote, 123%Z) st (decryptMessageAsync remote cipherText st).2)
  /\ (forall cs, demoOnDevice123 (runCalls cs newDemo)).
Proof.
  split; [exact encryptMessageAsync_confined|].
  split; [exact decryptMessageAsync_confined|].
  intros cs. apply runCalls_onDevice123, newDemo_onDevice123.
Qed.

(** ** The exchanges of the demo *)

(** C2 at its failing input, the demo itself: both decryptions give the
    original strings, but the reply of user 2 is produced after a second
    bundle fetch and a second key agreement and is again a
    PREKEY_MESSAGE (type 3), not an ORDINARY_MESSAGE. *)
Theorem runDemo_reply_is_a_second_handshake :
  exists r d,
    runDemo = (Resolved r, d)
    /\ type (encryptedMessage r) = PREKEY_MESSAGE
    /\ decryptedMessage r = "Hello User 2 !"
    /\ type (encryptedMessage2 r) = PREKEY_MESSAGE
    /\ type (encryptedMessage2 r) <> ORDINARY_MESSAGE
    /\ decryptedMessage2 r = "What is up user 1?"
    /\ calls (world d)
       = [ CallRegisterNewPreKeyBundle user1;
           CallRegisterNewPreKeyBundle user2;
           CallGetPreKeyBundle user2;
           CallProcessPreKey (user2, 123%Z);
           CallEncrypt (user2, 123%Z);
           CallDecryptPreKeyWhisperMessage (user1, 123%Z);
           CallGetPreKeyBundle user1;
           CallProcessPreKey (user1, 123%Z);
           CallEncrypt (user1, 123%Z);
           CallDecryptPreKeyWhisperMessage (user2, 123%Z) ].
Proof.
  destruct H as [toArrayBuffer toString Hlaw].
  unfold runDemo. vm_compute. rewrite !Hlaw.
  eexists _, _. split; [reflexivity|]. by repeat split.
Qed.

(** C1 at its failing input: user 1 sends two messages in a row to
    user 2.  The first is decrypted to the plaintext; the second is
    again a PREKEY_MESSAGE naming the one-time pre-key 123, which
    user 2 consumed with the first, and its decryption is rejected. *)
Theorem second_message_is_rejected first second :
  exists encrypted2 d,
    twoMessagesFrom first second newDemo
    = (Resolved (Resolved first, encrypted2, Rejected UnknownPreKeyId), d)
    /\ type encrypted2 = PREKEY_MESSAGE
    /\ st_preKeys (store (signalProtocolManagerUser2 d)) !! 123%N = None.
Proof.
  destruct H as [toArrayBuffer toString Hlaw].
  vm_compute. rewrite Hlaw.
  eexists _, _. split; [reflexivity|]. by split.
Qed.

(** The first message of the demo finds no session at user 2; its
    decryption creates one. *)
Lemma first_message_bootstraps_session message :
  exists encrypted d plaintext m' w',
    firstMessageFrom message newDemo = (Resolved encrypted, d)
    /\ st_sessions (store (signalProtocolManagerUser2 d)) !! (user1, 123%Z) = None
    /\ decryptMessageAsync user1 encrypted (signalProtocolManagerUser2 d, world d)
       = (Resolved plaintext, (m', w'))
    /\ plaintext = message
    /\ is_Some (st_sessions (store m') !! (user1, 123%Z)).
Proof.
  destruct H as [toArrayBuffer toString Hlaw].
  eexists _, _, _, _, _. split; [vm_compute; reflexivity|].
  split; [vm_compute; reflexivity|].
  split; [vm_compute; rewrite Hlaw; reflexivity|].
  split; [reflexivity|]. vm_compute. by eexists.
Qed.

(** On the modelled library a reply sent on the established session is
    an ORDINARY_MESSAGE that the peer decrypts, with no bundle fetched
    for it; passed to [decryptMessageAsync] instead, the same envelope
    gives the caller [util.toString] of a promise. *)
Lemma reply_on_session_is_ordinary message reply :
  exists encrypted2 d,
    replyOnSessionFrom message reply newDemo
    = (Resolved (encrypted2, util_toArrayBuffer reply), d)
    /\ type encrypted2 = ORDINARY_MESSAGE
    /\ calls (world d)
       = [ CallRegisterNewPreKeyBundle user1;
           CallRegisterNewPreKeyBundle user2;
           CallGetPreKeyBundle user2;
           CallProcessPreKey (user2, 123%Z);
           CallEncrypt (user2, 123%Z);
           CallDecryptPreKeyWhisperMessage (user1, 123%Z);
           CallEncrypt (user1, 123%Z);
           CallDecryptWhisperMessage (user2, 123%Z) ]
    /\ forall st, (decryptMessageAsync user2 encrypted2 st).1 = util_toString VPromise.
Proof.
  destruct H as [toArrayBuffer toString Hlaw].
  set (U := Build_Util toArrayBuffer toString Hlaw).
  assert (exists encrypted2 d,
            @replyOnSessionFrom U message reply newDemo
            = (Resolved (encrypted2, toArrayBuffer reply), d)
            /\ type encrypted2 = ORDINARY_MESSAGE
            /\ calls (world d)
       = [ CallRegisterNewPreKeyBundle user1;
           CallRegisterNewPreKeyBundle user2;
           CallGetPreKeyBundle user2;
           CallProcessPreKey (user2, 123%Z);
           CallEncrypt (user2, 123%Z);
           CallDecryptPreKeyWhisperMessage (user1, 123%Z);
           CallEncrypt (user1, 123%Z);
           CallDecryptWhisperMessage (user2, 123%Z) ])
    as (encrypted2 & d & Hrun & Hty & Hcalls).
  { vm_compute. rewrite Hlaw. eexists _, _. by repeat split. }
  exists encrypted2, d. split; [exact Hrun|]. split; [exact Hty|].
  split; [exact Hcalls|].
  intros st. apply (@decryptMessageAsync_ordinary_outcome U).
  rewrite Hty. discriminate.
Qed.

End Encrypt.

(** User 1 encrypting once more after the demo, with its session for
    user 2 in place. *)
Lemma encryptMessageAsync_processes_bundle_again_witness :
  exists d,
    (@runDemo binaryUtil).2 = d
    /\ is_Some (st_sessions (store (signalProtocolManagerUser1 d)) !! (user2, 123%Z))
    /\ exists rest,
         calls (@encryptMessageAsync binaryUtil user2 "again"
                  (signalProtocolManagerUser1 d, world d)).2.2
         = calls (world d)
           ++ [CallGetPreKeyBundle user2; CallProcessPreKey (user2, 123%Z)] ++ rest.
Proof.
  eexists. split; [vm_compute; reflexivity|].
  split; [by eexists|].
  eapply (@encryptMessageAsync_processes_bundle_again binaryUtil user2 "again").
  vm_compute. reflexivity.
Defined.

(** ** The stated properties at concrete inputs *)

(** A store whose only registration was made under "__proto__": a
    registered user reads back its bundle, an unregistered one reads
    [undefined], and the unregistered name "preKey" reads a field of the
    bundle that became the prototype. *)
Lemma getPreKeyBundle_register_spec_witness :
  exists b,
    b = {| identityKey := Pub 0; registrationId := 1;
           preKey := {| pk_keyId := 123; pk_publicKey := Pub 2 |};
           signedPreKey := {| spk_keyId := 456; spk_publicKey := Pub 3;
                              spk_signature := Sig 0 (Pub 3) |} |}
    /\ getPreKeyBundle user1
         (registerNewPreKeyBundle user1 b
            (registerAll [("__proto__", b)] newSignalServerStore))
       = VPreKeyBundle b
    /\ getPreKeyBundle user2 (registerAll [("__proto__", b)] newSignalServerStore)
       = VUndefined
    /\ getPreKeyBundle "preKey" (registerAll [("__proto__", b)] newSignalServerStore)
       = VPreKey (preKey b).
Proof.
  eexists. split; [reflexivity|].
  split; [apply (getPreKeyBundle_register_spec [("__proto__", _)] user1)|].
  split; [|reflexivity].
  apply (getPreKeyBundle_register_spec [("__proto__", _)] user2
           {| identityKey := Pub 0; registrationId := 1;
              preKey := {| pk_keyId := 123; pk_publicKey := Pub 2 |};
              signedPreKey := {| spk_keyId := 456; spk_publicKey := Pub 3;
                                 spk_signature := Sig 0 (Pub 3) |} |}).
  - unfold user2. simpl. rewrite !not_elem_of_cons.
    split; [discriminate | apply not_elem_of_nil].
  - unfold objectPrototypeNames, user2. rewrite !not_elem_of_cons.
    repeat split; try discriminate. apply not_elem_of_nil.
  - right. unfold bundleFieldNames, user2. rewrite !not_elem_of_cons.
    repeat split; try discriminate. apply not_elem_of_nil.
Defined.

(** The first envelope of the demo: type 3, no session at user 2
    before its decryption, one after. *)
Lemma decryptMessageAsync_dispatch_witness :
  exists encrypted d,
    @firstMessageFrom binaryUtil "Hello User 2 !" newDemo = (Resolved encrypted, d)
    /\ type encrypted = PREKEY_MESSAGE
    /\ st_sessions (store (signalProtocolManagerUser2 d)) !! (user1, 123%Z) = None
    /\ exists m' w',
         @decryptMessageAsync binaryUtil user1 encrypted
           (signalProtocolManagerUser2 d, world d)
         = (Resolved "Hello User 2 !", (m', w'))
         /\ is_Some (st_sessions (store m') !! (user1, 123%Z)).
Proof.
  let v := eval vm_compute in (@firstMessageFrom binaryUtil "Hello User 2 !" newDemo) in
  lazymatch v with (Resolved ?e, ?d) => exists e, d end.
  split; [vm_compute; reflexivity|].
  split; [reflexivity|]. split; [vm_compute; reflexivity|].
  lazymatch goal with
  | |- exists m' w', @decryptMessageAsync _ _ ?c (?m, ?w) = _ /\ _ =>
      let v := eval vm_compute in (@decryptMessageAsync binaryUtil user1 c (m, w)) in
      lazymatch v with
      | (Resolved ?p, (?m', ?w')) =>
          exists m', w'; split;
          [ vm_compute; reflexivity
          | apply (proj2 (proj2 (proj2
                     (@decryptMessageAsync_dispatch binaryUtil user1 c m w)))
                     eq_refl p m' w');
            vm_compute; reflexivity ]
      end
  end.
Defined.

(** * Further properties *)

(** ** The server store: other users and the prototype *)

(** X1: a registration under another user ID [v] leaves what
    [getPreKeyBundle u] gives unchanged, provided [v] is not "__proto__"
    or [u] has a bundle registered as an own property. *)
Theorem registerNewPreKeyBundle_other_user (s : SignalServerStore)
    (u v : string) (b : PreKeyBundle) :
  u <> v ->
  v <> "__proto__" \/ is_Some (own s !! u) ->
  getPreKeyBundle u (registerNewPreKeyBundle v b s) = getPreKeyBundle u s.
Proof.
  intros Hne Hcase. unfold getPreKeyBundle, objectGet.
  rewrite own_register_other by done.
  destruct Hcase as [Hv | [x Hx]].
  - by rewrite proto_register_other.
  - by rewrite Hx.
Qed.

Lemma bundleField_Some p u : u ∈ bundleFieldNames ->
  exists v, bundleField p u = Some v /\ v <> VUndefined.
Proof.
  unfold bundleFieldNames. rewrite !elem_of_cons, elem_of_nil.
  intros [->|[->|[->|[->|[]]]]]; eexists; (split; [reflexivity|discriminate]).
Qed.

(** X2: once a bundle has been registered under "__proto__", it is the
    prototype of the store object: a user ID that was never registered
    and is the name of a bundle field reads as that field of the bundle,
    not as [undefined], also after later registrations of other users. *)
Theorem proto_registration_shadows_undefined
    (h1 h2 : list (string * PreKeyBundle)) (b : PreKeyBundle) (u : string) :
  u ∉ h1.*1 -> u ∉ h2.*1 -> "__proto__" ∉ h2.*1 ->
  u ∈ bundleFieldNames ->
  exists v,
    bundleField b u = Some v
    /\ v <> VUndefined
    /\ getPreKeyBundle u
         (registerAll h2
            (registerNewPreKeyBundle "__proto__" b
               (registerAll h1 newSignalServerStore))) = v.
Proof.
  intros H1 H2 Hp Hf. destruct (bundleField_Some b u Hf) as (v & Hv & Hdef).
  exists v. split; [done|]. split; [done|].
  unfold getPreKeyBundle, objectGet.
  rewrite own_registerAll_unregistered by done.
  rewrite proto_registerAll_untouched by done.
  unfold registerNewPreKeyBundle at 1 2, objectSet. simpl.
  rewrite own_registerAll_unregistered by done. simpl.
  by rewrite lookup_empty, Hv.
Qed.

(** ** The two messaging methods, step by step *)

Lemma processPreKeyOn_frame a dev e r s u s' :
  libsignal.processPreKeyOn a dev e r s = Resolved (u, s') ->
  st_identityKey s' = st_identityKey s
  /\ st_registrationId s' = st_registrationId s
  /\ st_preKeys s' = st_preKeys s
  /\ st_signedPreKeys s' = st_signedPreKeys s.
Proof.
  intros Hrun. apply processPreKeyOn_resolved in Hrun as (b & ours & reg & _ & ->).
  done.
Qed.

Lemma encryptOn_frame a plaintext s c s' :
  libsignal.encryptOn a plaintext s = Resolved (c, s') ->
  st_identityKey s' = st_identityKey s
  /\ st_registrationId s' = st_registrationId s
  /\ st_preKeys s' = st_preKeys s
  /\ st_signedPreKeys s' = st_signedPreKeys s.
Proof.
  unfold libsignal.encryptOn. intros Hrun.
  repeat case_match; simplify_eq; done.
Qed.

Lemma decryptPreKeyWhisperMessageOn_frame a b seed s p s' :
  libsignal.decryptPreKeyWhisperMessageOn a b seed s = Resolved (p, s') ->
  st_identityKey s' = st_identityKey s
  /\ st_registrationId s' = st_registrationId s
  /\ st_signedPreKeys s' = st_signedPreKeys s
  /\ exists h inner,
       b = PreKeyWhisperBody h inner
       /\ st_preKeys s' = delete (hs_preKeyId h) (st_preKeys s).
Proof.
  unfold libsignal.decryptPreKeyWhisperMessageOn. intros Hrun.
  repeat case_match; simplify_eq. repeat split; eauto.
Qed.

Lemma decryptWhisperMessageOn_frame a b seed s p s' :
  libsignal.decryptWhisperMessageOn a b seed s = Resolved (p, s') ->
  st_identityKey s' = st_identityKey s
  /\ st_registrationId s' = st_registrationId s
  /\ st_preKeys s' = st_preKeys s
  /\ st_signedPreKeys s' = st_signedPreKeys s.
Proof.
  unfold libsignal.decryptWhisperMessageOn. intros Hrun.
  repeat case_match; simplify_eq; done.
Qed.

Lemma unknown_prekey_rejected a h inner seed s :
  st_preKeys s !! hs_preKeyId h = None ->
  exists e,
    libsignal.decryptPreKeyWhisperMessageOn a (PreKeyWhisperBody h inner) seed s
    = Rejected e.
Proof.
  intros Hk. unfold libsignal.decryptPreKeyWhisperMessageOn. rewrite Hk.
  repeat case_match; eauto.
Qed.

Section Messaging.

Context `{Util}.

(** [encryptMessageAsync] as one expression over the two library steps. *)
Lemma encryptMessageAsync_unfold remote message m w :
  encryptMessageAsync remote message (m, w)
  = match libsignal.processPreKeyOn (remote, 123%Z)
            (getPreKeyBundle remote (signalServerStore w))
            (entropy w) (S (entropy w)) (store m)
    with
    | Rejected e =>
        (Rejected e,
         (m, {| entropy := S (S (entropy w));
                signalServerStore := signalServerStore w;
                calls := (calls w ++ [CallGetPreKeyBundle remote])
                         ++ [CallProcessPreKey (remote, 123%Z)];
                unhandledRejections := unhandledRejections w |}))
    | Resolved (_, s1) =>
        let w2 :=
          {| entropy := S (S (entropy w));
             signalServerStore := signalServerStore w;
             calls := ((calls w ++ [CallGetPreKeyBundle remote])
                       ++ [CallProcessPreKey (remote, 123%Z)])
                      ++ [CallEncrypt (remote, 123%Z)];
             unhandledRejections := unhandledRejections w |} in
        match libsignal.encryptOn (remote, 123%Z) (util_toArrayBuffer message) s1 with
        | Rejected e => (Rejected e, ({| userId := userId m; store := s1 |}, w2))
        | Resolved (c, s2) => (Resolved c, ({| userId := userId m; store := s2 |}, w2))
        end
    end.
Proof.
  unfold encryptMessageAsync, await, libsignal.processPreKey, libsignal.encrypt,
    libsignal.SessionBuilder, libsignal.SessionCipher, SignalProtocolAddress,
    Server.getPreKeyBundle, bind, record, fresh, atomically, ret.
  simpl.
  destruct (libsignal.processPreKeyOn _ _ _ _ _) as [[u s1]|e]; simpl; [|done].
  by destruct (libsignal.encryptOn _ _ _) as [[c s2]|e].
Qed.

(** [decryptMessageAsync] as one expression over the library step. *)
Lemma decryptMessageAsync_unfold remote cipherText m w :
  decryptMessageAsync remote cipherText (m, w)
  = if (type cipherText =? 3)%Z then
      let w1 :=
        {| entropy := S (entropy w);
           signalServerStore := signalServerStore w;
           calls := calls w ++ [CallDecryptPreKeyWhisperMessage (remote, 123%Z)];
           unhandledRejections := unhandledRejections w |} in
      match libsignal.decryptPreKeyWhisperMessageOn (remote, 123%Z)
              (body cipherText) (entropy w) (store m)
      with
      | Resolved (p, s1) =>
          (util_toString (VArrayBuffer p), ({| userId := userId m; store := s1 |}, w1))
      | Rejected e => (Rejected e, (m, w1))
      end
    else
      match libsignal.decryptWhisperMessageOn (remote, 123%Z)
              (body cipherText) (entropy w) (store m)
      with
      | Resolved (p, s1) =>
          (util_toString VPromise,
           ({| userId := userId m; store := s1 |},
            {| entropy := S (entropy w);
               signalServerStore := signalServerStore w;
               calls := calls w ++ [CallDecryptWhisperMessage (remote, 123%Z)];
               unhandledRejections := unhandledRejections w |}))
      | Rejected e =>
          (util_toString VPromise,
           (m, {| entropy := S (entropy w);
                  signalServerStore := signalServerStore w;
                  calls := calls w ++ [CallDecryptWhisperMessage (remote, 123%Z)];
                  unhandledRejections := unhandledRejections w ++ [e] |}))
      end.
Proof.
  unfold decryptMessageAsync, await, unawaited,
    libsignal.decryptPreKeyWhisperMessage, libsignal.decryptWhisperMessage,
    libsignal.SessionCipher, SignalProtocolAddress,
    bind, record, fresh, atomically, settle.
  destruct (type cipherText =? 3)%Z; simpl.
  - by destruct (libsignal.decryptPreKeyWhisperMessageOn _ _ _ _) as [[p s1]|e].
  - by destruct (libsignal.decryptWhisperMessageOn _ _ _ _) as [[p s1]|e].
Qed.

(** X5: when the server gives no bundle object for the recipient
    (never registered, or an inherited property), or gives a bundle
    whose signature does not verify, [encryptMessageAsync] rejects: the
    manager is left exactly as it was, an existing session included, and
    after the fetch and [processPreKey] no [encrypt] call is made. *)
Theorem encryptMessageAsync_without_valid_bundle remote message m w :
  (forall b,
     getPreKeyBundle remote (signalServerStore w) = VPreKeyBundle b ->
     Ed25519Verify (identityKey b) (spk_publicKey (signedPreKey b))
       (spk_signature (signedPreKey b)) = false) ->
  exists e,
    encryptMessageAsync remote message (m, w)
    = (Rejected e,
       (m, {| entropy := S (S (entropy w));
              signalServerStore := signalServerStore w;
              calls := calls w ++ [CallGetPreKeyBundle remote;
                                   CallProcessPreKey (remote, 123%Z)];
              unhandledRejections := unhandledRejections w |})).
Proof.
  intros Hbad. rewrite encryptMessageAsync_unfold.
  destruct (libsignal.processPreKeyOn _ _ _ _ _) as [[u s1]|e] eqn:Hrun;
    [|exists e; by rewrite <- app_assoc].
  exfalso. unfold libsignal.processPreKeyOn in Hrun.
  destruct (getPreKeyBundle remote (signalServerStore w)) as [| | | | | |b| | |];
    try discriminate.
  rewrite (Hbad b eq_refl) in Hrun. repeat case_match; discriminate.
Qed.

(** The envelope and the store [encryptMessageAsync] resolves with when
    the manager holds its identity and the server a verifying bundle. *)
Lemma encryptMessageAsync_resolved_form remote message m w ours reg b :
  st_identityKey (store m) = Some ours ->
  st_registrationId (store m) = Some reg ->
  getPreKeyBundle remote (signalServerStore w) = VPreKeyBundle b ->
  Ed25519Verify (identityKey b) (spk_publicKey (signedPreKey b))
    (spk_signature (signedPreKey b)) = true ->
  exists s2,
    encryptMessageAsync remote message (m, w)
    = (Resolved
         {| type := PREKEY_MESSAGE;
            body :=
              PreKeyWhisperBody
                {| hs_identityKey := pubKey ours;
                   hs_registrationId := reg;
                   hs_preKeyId := pk_keyId (preKey b);
                   hs_signedPreKeyId := spk_keyId (signedPreKey b);
                   hs_baseKey := Pub (entropy w) |}
                {| msg_ratchetKey := Pub (S (entropy w));
                   msg_counter := 0;
                   msg_ciphertext :=
                     seal
                       (Hmac
                          (Mix (Ratchet.agreeInitiator ours
                                  (createKeyPair (entropy w)) b)
                               (DH (Priv (S (entropy w)))
                                   (spk_publicKey (signedPreKey b)))
                               Lchain)
                          Lmsg)
                       (util_toArrayBuffer message) |} |},
       ({| userId := userId m; store := s2 |},
        {| entropy := S (S (entropy w));
           signalServerStore := signalServerStore w;
           calls := calls w ++ [CallGetPreKeyBundle remote;
                                CallProcessPreKey (remote, 123%Z);
                                CallEncrypt (remote, 123%Z)];
           unhandledRejections := unhandledRejections w |}))
    /\ is_Some (st_sessions s2 !! (remote, 123%Z))
    /\ st_identityKey s2 = Some ours
    /\ st_registrationId s2 = Some reg
    /\ st_preKeys s2 = st_preKeys (store m)
    /\ st_signedPreKeys s2 = st_signedPreKeys (store m).
Proof.
  intros Hid Hreg Hget Hsig. rewrite encryptMessageAsync_unfold, Hget.
  unfold libsignal.processPreKeyOn, KeyStore.getIdentityKeyPair,
    KeyStore.getLocalRegistrationId. rewrite Hid, Hreg, Hsig.
  unfold libsignal.encryptOn, KeyStore.loadSession.
  cbn [KeyStore.storeSession st_sessions]. rewrite lookup_insert_eq.
  rewrite <- !app_assoc.
  eexists. split; [reflexivity|].
  cbn -[DH]. rewrite lookup_insert_eq. by repeat split.
Qed.

(** X6: when the manager's store holds its identity key pair and
    registration ID and the server holds for the recipient a bundle
    whose signature verifies, [encryptMessageAsync] resolves with a
    type-3 envelope whose handshake carries the manager's identity public
    key and registration ID and names the pre-key and signed pre-key IDs
    of that bundle, with chain counter 0 and the bytes of the message
    sealed; a session is stored for (remoteUserId, 123), the server is
    not written, and the three calls are fetch, processPreKey, encrypt. *)
Theorem encryptMessageAsync_with_valid_bundle remote message m w ours reg b :
  st_identityKey (store m) = Some ours ->
  st_registrationId (store m) = Some reg ->
  getPreKeyBundle remote (signalServerStore w) = VPreKeyBundle b ->
  Ed25519Verify (identityKey b) (spk_publicKey (signedPreKey b))
    (spk_signature (signedPreKey b)) = true ->
  exists key m' w',
    encryptMessageAsync remote message (m, w)
    = (Resolved
         {| type := PREKEY_MESSAGE;
            body :=
              PreKeyWhisperBody
                {| hs_identityKey := pubKey ours;
                   hs_registrationId := reg;
                   hs_preKeyId := pk_keyId (preKey b);
                   hs_signedPreKeyId := spk_keyId (signedPreKey b);
                   hs_baseKey := Pub (entropy w) |}
                {| msg_ratchetKey := Pub (S (entropy w));
                   msg_counter := 0;
                   msg_ciphertext := seal key (util_toArrayBuffer message) |} |},
       (m', w'))
    /\ userId m' = userId m
    /\ is_Some (st_sessions (store m') !! (remote, 123%Z))
    /\ calls w' = calls w ++ [CallGetPreKeyBundle remote;
                              CallProcessPreKey (remote, 123%Z);
                              CallEncrypt (remote, 123%Z)]
    /\ signalServerStore w' = signalServerStore w.
Proof.
  intros Hid Hreg Hget Hsig.
  destruct (encryptMessageAsync_resolved_form remote message m w ours reg b
              Hid Hreg Hget Hsig) as (s2 & Hrun & Hsess & _).
  eexists _, _, _. split; [exact Hrun|]. by repeat split.
Qed.

End Messaging.

Section Messaging2.

Context `{Util}.

(** What one messaging call leaves of the manager and the server. *)
Lemma perform_frame c st :
  isMessaging c ->
  userId (perform c st).2.1 = userId st.1
  /\ st_identityKey (store (perform c st).2.1) = st_identityKey (store st.1)
  /\ st_registrationId (store (perform c st).2.1) = st_registrationId (store st.1)
  /\ st_signedPreKeys (store (perform c st).2.1) = st_signedPreKeys (store st.1)
  /\ st_preKeys (store (perform c st).2.1) ⊆ st_preKeys (store st.1)
  /\ signalServerStore (perform c st).2.2 = signalServerStore st.2.
Proof.
  destruct st as [m w].
  destruct c as [|remote message|remote cipherText]; intros Hc; [done| |]; simpl;
    rewrite discard_result_state.
  - rewrite encryptMessageAsync_unfold.
    destruct (libsignal.processPreKeyOn _ _ _ _ _) as [[u s1]|e] eqn:E1; [|done].
    apply processPreKeyOn_frame in E1 as (Hi & Hr & Hp & Hs). simpl.
    destruct (libsignal.encryptOn _ _ _) as [[c s2]|e] eqn:E2; simpl.
    + apply encryptOn_frame in E2 as (Hi2 & Hr2 & Hp2 & Hs2).
      by rewrite Hi2, Hr2, Hp2, Hs2, Hi, Hr, Hp, Hs.
    + by rewrite Hi, Hr, Hp, Hs.
  - rewrite decryptMessageAsync_unfold.
    destruct (type cipherText =? 3)%Z.
    + destruct (libsignal.decryptPreKeyWhisperMessageOn _ _ _ _)
        as [[p s1]|e] eqn:E1; [|done].
      apply decryptPreKeyWhisperMessageOn_frame in E1
        as (Hi & Hr & Hs & h & inner & _ & Hp). simpl.
      rewrite Hi, Hr, Hs, Hp. repeat split. apply delete_subseteq.
    + destruct (libsignal.decryptWhisperMessageOn _ _ _ _)
        as [[p s1]|e] eqn:E1; [|done].
      apply decryptWhisperMessageOn_frame in E1 as (Hi & Hr & Hp & Hs). simpl.
      by rewrite Hi, Hr, Hp, Hs.
Qed.

Lemma performAll_snoc cs c st :
  performAll (cs ++ [c]) st = (perform c (performAll cs st)).2.
Proof. unfold performAll. by rewrite foldl_snoc. Qed.

(** X8: a sequence of [encryptMessageAsync] and [decryptMessageAsync]
    calls never changes the manager's user ID, identity key pair,
    registration ID or signed pre-keys, never adds or replaces a one-time
    pre-key (it can only delete some), and never writes to the server. *)
Theorem messaging_keeps_key_material (cs : list ManagerCall) st :
  Forall isMessaging cs ->
  userId (performAll cs st).1 = userId st.1
  /\ st_identityKey (store (performAll cs st).1) = st_identityKey (store st.1)
  /\ st_registrationId (store (performAll cs st).1) = st_registrationId (store st.1)
  /\ st_signedPreKeys (store (performAll cs st).1) = st_signedPreKeys (store st.1)
  /\ st_preKeys (store (performAll cs st).1) ⊆ st_preKeys (store st.1)
  /\ signalServerStore (performAll cs st).2 = signalServerStore st.2.
Proof.
  induction cs as [|c cs IH] using rev_ind; intros Hcs; [done|].
  apply Forall_app in Hcs as [Hcs Hc%Forall_inv].
  destruct (IH Hcs) as (Hu & Hi & Hr & Hs & Hp & Hsrv).
  rewrite performAll_snoc.
  destruct (perform_frame c (performAll cs st) Hc) as (Hu' & Hi' & Hr' & Hs' & Hp' & Hsrv').
  rewrite Hu', Hi', Hr', Hs', Hsrv'. repeat split; try done.
  by transitivity (st_preKeys (store (performAll cs st).1)).
Qed.

Lemma performAll_prekey_stays_absent (cs : list ManagerCall) st k :
  Forall isMessaging cs ->
  st_preKeys (store st.1) !! k = None ->
  st_preKeys (store (performAll cs st).1) !! k = None.
Proof.
  induction cs as [|c cs IH] using rev_ind; intros Hcs Hk; [done|].
  apply Forall_app in Hcs as [Hcs Hc%Forall_inv].
  rewrite performAll_snoc.
  destruct (perform_frame c (performAll cs st) Hc) as (_ & _ & _ & _ & Hp & _).
  eapply lookup_weaken_None; [|exact Hp]. by apply IH.
Qed.

(** X9: once [decryptMessageAsync] has resolved on a type-3 envelope
    naming one-time pre-key [k], the store no longer holds [k] while the
    server's store is unchanged; and after any further encrypt and
    decrypt calls, every type-3 envelope naming [k], from whomever, is
    rejected. *)
Theorem consumed_prekey_stays_rejected
    remote cipherText m w plaintext m' w' k
    (cs : list ManagerCall) remote2 cipherText2 :
  type cipherText = PREKEY_MESSAGE ->
  namedPreKey cipherText = Some k ->
  decryptMessageAsync remote cipherText (m, w) = (Resolved plaintext, (m', w')) ->
  Forall isMessaging cs ->
  type cipherText2 = PREKEY_MESSAGE ->
  namedPreKey cipherText2 = Some k ->
  st_preKeys (store m') !! k = None
  /\ signalServerStore w' = signalServerStore w
  /\ exists e,
       (decryptMessageAsync remote2 cipherText2 (performAll cs (m', w'))).1
       = Rejected e.
Proof.
  unfold PREKEY_MESSAGE, namedPreKey. intros Hty Hk Hrun Hcs Hty2 Hk2.
  rewrite decryptMessageAsync_unfold, Hty in Hrun. simpl in Hrun.
  destruct (libsignal.decryptPreKeyWhisperMessageOn _ _ _ _)
    as [[p s1]|e] eqn:E1; [|discriminate].
  apply decryptPreKeyWhisperMessageOn_frame in E1
    as (_ & _ & _ & h & inner & Hbody & Hp).
  rewrite Hbody in Hk. simplify_eq. simpl.
  assert (st_preKeys s1 !! hs_preKeyId h = None) as Hgone
    by (rewrite Hp; apply lookup_delete_eq).
  split; [done|]. split; [done|].
  pose proof (performAll_prekey_stays_absent cs
                ({| userId := userId m; store := s1 |},
                 {| entropy := S (entropy w);
                    signalServerStore := signalServerStore w;
                    calls := calls w ++ [CallDecryptPreKeyWhisperMessage (remote, 123%Z)];
                    unhandledRejections := unhandledRejections w |})
                (hs_preKeyId h) Hcs Hgone) as Hlater.
  destruct (performAll cs _) as [m2 w2]. simpl in Hlater.
  rewrite decryptMessageAsync_unfold, Hty2. simpl.
  destruct (body cipherText2) as [h2 inner2|inner2]; simplify_eq.
  - rewrite <- Hk2 in Hlater.
    destruct (unknown_prekey_rejected (remote2, 123%Z) h2 inner2 (entropy w2)
                (store m2) Hlater) as [e ->].
    by exists e.
Qed.

End Messaging2.

(** ** Logging on, and the first message in each direction *)

Lemma getPreKeyBundle_registered_then_other u v b b' s :
  noOwnProto s -> u <> v ->
  getPreKeyBundle u
    (registerNewPreKeyBundle v b' (registerNewPreKeyBundle u b s))
  = VPreKeyBundle b.
Proof.
  intros Hs Hne. unfold getPreKeyBundle, objectGet.
  rewrite own_register_other by done.
  destruct (String.eqb_spec u "__proto__") as [->|Hu].
  - rewrite proto_register_other by done.
    unfold registerNewPreKeyBundle, objectSet. simpl. by rewrite Hs.
  - unfold registerNewPreKeyBundle at 1, objectSet.
    destruct (String.eqb_spec u "__proto__") as [|_]; [done|]. simpl.
    by rewrite lookup_insert_eq.
Qed.

(** A pre-key message sealed for one signed pre-key is rejected by a
    store that holds another key pair under the named ID. *)
Lemma prekey_mismatch_rejected a seed s
    (senderIdentity : PubKey) (reg pkId spkId : N) (baseKey : PubKey)
    (rSeed : nat) (root : Secret) (spk spk' : nat) (plaintext : list Byte.byte) :
  st_signedPreKeys s !! spkId = Some (createKeyPair spk') ->
  spk' <> spk ->
  exists e,
    libsignal.decryptPreKeyWhisperMessageOn a
      (PreKeyWhisperBody
         {| hs_identityKey := senderIdentity; hs_registrationId := reg;
            hs_preKeyId := pkId; hs_signedPreKeyId := spkId;
            hs_baseKey := baseKey |}
         {| msg_ratchetKey := Pub rSeed; msg_counter := 0;
            msg_ciphertext :=
              seal (Hmac (Mix root (DH (Priv rSeed) (Pub spk)) Lchain) Lmsg)
                   plaintext |})
      seed s
    = Rejected e.
Proof.
  intros Hsigned Hne. unfold libsignal.decryptPreKeyWhisperMessageOn.
  destruct (KeyStore.getIdentityKeyPair s) as [ours|e]; [|by eexists].
  cbn [hs_signedPreKeyId hs_preKeyId hs_identityKey hs_baseKey]. rewrite Hsigned.
  destruct (st_preKeys s !! pkId) as [oneTime|]; [|by eexists].
  unfold Ratchet.ratchetDecrypt, Ratchet.isNewRatchetKey. simpl.
  rewrite bool_decide_eq_true_2 by done.
  unfold Ratchet.dhRatchet. simpl. rewrite lookup_insert_eq.
  unfold Ratchet.consumeKey. simpl. rewrite map_size_empty. simpl.
  unfold unseal. simpl.
  rewrite bool_decide_eq_false_2; [by eexists|].
  intros E. injection E as _ E1 E2. lia.
Qed.

Section FirstContact.

Context `{Util}.

(** One direction, with everything the next direction needs. *)
Lemma first_contact to from message sender receiver w b :
  hasIdentity (store sender) ->
  getPreKeyBundle to (signalServerStore w) = VPreKeyBundle b ->
  holdsKeysOf (store receiver) b ->
  exists envelope sA w1 sB w2,
    encryptMessageAsync to message (sender, w)
    = (Resolved envelope, ({| userId := userId sender; store := sA |}, w1))
    /\ type envelope = PREKEY_MESSAGE
    /\ namedPreKey envelope = Some (pk_keyId (preKey b))
    /\ decryptMessageAsync from envelope (receiver, w1)
       = (Resolved message, ({| userId := userId receiver; store := sB |}, w2))
    /\ (st_identityKey sA = st_identityKey (store sender)
        /\ st_registrationId sA = st_registrationId (store sender)
        /\ st_preKeys sA = st_preKeys (store sender)
        /\ st_signedPreKeys sA = st_signedPreKeys (store sender))
    /\ (st_identityKey sB = st_identityKey (store receiver)
        /\ st_registrationId sB = st_registrationId (store receiver)
        /\ st_preKeys sB = delete (pk_keyId (preKey b)) (st_preKeys (store receiver))
        /\ st_signedPreKeys sB = st_signedPreKeys (store receiver))
    /\ signalServerStore w2 = signalServerStore w
    /\ is_Some (st_sessions sA !! (to, 123%Z))
    /\ is_Some (st_sessions sB !! (from, 123%Z)).
Proof.
  intros [[idA HidA] [regA HregA]] Hget
    (idB & otk & spk & HidB & Hotk & Hspk & Hik & Hpk & Hspkpub & Hsig).
  destruct b as [ik rid [pkId pkPub] [spkId spkPub sig]]. simpl in *. subst.
  destruct (prekey_round_trip (store sender) (store receiver)
              (to, 123%Z) (from, 123%Z) idA idB otk spk
              (entropy w) (S (entropy w)) (S (S (entropy w)))
              regA rid pkId spkId (util_toArrayBuffer message)
              HidA HregA HidB Hotk Hspk)
    as (sA' & sA & envelope & sB & E1 & E2 & Hty & E3 & Hgone & Hsess).
  exists envelope, sA. eexists. exists sB. eexists.
  rewrite encryptMessageAsync_unfold, Hget, E1. cbv zeta. rewrite E2.
  split; [reflexivity|]. split; [exact Hty|].
  rewrite decryptMessageAsync_unfold, Hty. simpl. rewrite E3.
  rewrite util_toString_toArrayBuffer.
  pose proof (processPreKeyOn_frame _ _ _ _ _ _ _ E1) as (Hi1 & Hr1 & Hp1 & Hs1).
  pose proof (encryptOn_frame _ _ _ _ _ E2) as (Hi2 & Hr2 & Hp2 & Hs2).
  pose proof (encryptOn_sessions _ _ _ _ _ E2) as [x Hx].
  pose proof (decryptPreKeyWhisperMessageOn_frame _ _ _ _ _ _ E3)
    as (Hi3 & Hr3 & Hs3 & h & inner & Hbody & Hp3).
  unfold namedPreKey. rewrite Hbody.
  assert (hs_preKeyId h = pkId) as Hh.
  { unfold libsignal.encryptOn in E2. apply processPreKeyOn_resolved in E1
      as (b0 & ours & reg & Hb0 & ->).
    unfold KeyStore.loadSession in E2. simpl in E2.
    rewrite lookup_insert_eq in E2. simpl in E2.
    injection Hb0 as <-. injection E2 as <- _.
    simpl in Hbody. by injection Hbody as <- _. }
  rewrite Hh in *.
  split; [done|]. split; [reflexivity|].
  split; [by rewrite Hi2, Hr2, Hp2, Hs2, Hi1, Hr1, Hp1, Hs1|].
  split; [done|]. split; [done|].
  split; [rewrite Hx, lookup_insert_eq; by eexists | done].
Qed.

End FirstContact.

Lemma holdsKeysOf_same_keys s s' b :
  st_identityKey s' = st_identityKey s ->
  st_preKeys s' = st_preKeys s ->
  st_signedPreKeys s' = st_signedPreKeys s ->
  holdsKeysOf s b -> holdsKeysOf s' b.
Proof.
  intros Hi Hp Hs (idSeed & preSeed & signedSeed & H1 & H2 & H3 & Hrest).
  exists idSeed, preSeed, signedSeed. by rewrite Hi, Hp, Hs.
Qed.

(** What logging on leaves, in the terms the first message needs. *)
Lemma initializeAsync_facts m w :
  exists m' w' b,
    initializeAsync (m, w) = (Resolved tt, (m', w'))
    /\ userId m' = userId m
    /\ signalServerStore w'
       = registerNewPreKeyBundle (userId m) b (signalServerStore w)
    /\ hasIdentity (store m')
    /\ holdsKeysOf (store m') b
    /\ pk_keyId (preKey b) = 123%N
    /\ spk_keyId (signedPreKey b) = 456%N
    /\ st_registrationId (store m') = Some (registrationId b)
    /\ st_sessions (store m') = st_sessions (store m)
    /\ exists n, spk_publicKey (signedPreKey b) = Pub n /\ n < entropy w'.
Proof.
  eexists _, _, _. split; [apply initializeAsync_run|]. simpl.
  split; [done|]. split; [done|].
  split; [split; by eexists|].
  split; [eexists _, _, _; simpl; rewrite !lookup_insert_eq; by repeat split|].
  repeat split; try done. eexists. split; [reflexivity|lia].
Qed.

Section LogOn.

Context `{Util}.

Lemma asUser1_bind {A B} (p : Async A) (k : A -> Task Demo B) d :
  bind (asUser1 p) k d
  = match p (signalProtocolManagerUser1 d, world d) with
    | (Resolved a, (m, w)) =>
        k a {| signalProtocolManagerUser1 := m;
               signalProtocolManagerUser2 := signalProtocolManagerUser2 d;
               world := w |}
    | (Rejected e, (m, w)) =>
        (Rejected e,
         {| signalProtocolManagerUser1 := m;
            signalProtocolManagerUser2 := signalProtocolManagerUser2 d;
            world := w |})
    end.
Proof. unfold bind, asUser1. by destruct (p _) as [[a|e] [m w]]. Qed.

Lemma asUser2_bind {A B} (p : Async A) (k : A -> Task Demo B) d :
  bind (asUser2 p) k d
  = match p (signalProtocolManagerUser2 d, world d) with
    | (Resolved a, (m, w)) =>
        k a {| signalProtocolManagerUser1 := signalProtocolManagerUser1 d;
               signalProtocolManagerUser2 := m;
               world := w |}
    | (Rejected e, (m, w)) =>
        (Rejected e,
         {| signalProtocolManagerUser1 := signalProtocolManagerUser1 d;
            signalProtocolManagerUser2 := m;
            world := w |})
    end.
Proof. unfold bind, asUser2. by destruct (p _) as [[a|e] [m w]]. Qed.

(** [runDemo] is the conversation of its two managers with its two
    strings. *)
Lemma runDemo_is_conversation :
  runDemo = conversation "Hello User 2 !" "What is up user 1?" newDemo.
Proof.
  unfold runDemo, runDemoFrom, conversation.
  change (userId (signalProtocolManagerUser1 newDemo)) with user1.
  change (userId (signalProtocolManagerUser2 newDemo)) with user2.
  reflexivity.
Qed.

(** X10: if the sender's store holds a generated identity and a
    registration ID, and the server holds under [to] a bundle whose
    private keys the receiver's store holds, then the envelope of the
    sender's [encryptMessageAsync(to, message)] is of type 3 and the
    receiver's [decryptMessageAsync(from, envelope)] resolves with
    exactly [message], for every [from]; afterwards both sides hold a
    session and the receiver's one-time pre-key named by the bundle is
    gone. *)
Theorem first_message_round_trip to from message sender receiver w b :
  hasIdentity (store sender) ->
  getPreKeyBundle to (signalServerStore w) = VPreKeyBundle b ->
  holdsKeysOf (store receiver) b ->
  exists envelope sender' w1 receiver' w2,
    encryptMessageAsync to message (sender, w) = (Resolved envelope, (sender', w1))
    /\ type envelope = PREKEY_MESSAGE
    /\ decryptMessageAsync from envelope (receiver, w1)
       = (Resolved message, (receiver', w2))
    /\ st_preKeys (store receiver') !! pk_keyId (preKey b) = None
    /\ is_Some (st_sessions (store sender') !! (to, 123%Z))
    /\ is_Some (st_sessions (store receiver') !! (from, 123%Z)).
Proof.
  intros Hsender Hget Hreceiver.
  destruct (first_contact to from message sender receiver w b
              Hsender Hget Hreceiver)
    as (envelope & sA & w1 & sB & w2 & Henc & Hty & _ & Hdec & _ & HB & _ & HsA & HsB).
  eexists _, _, _, _, _. split; [exact Henc|]. split; [exact Hty|].
  split; [exact Hdec|]. simpl. destruct HB as (_ & _ & -> & _).
  split; [apply lookup_delete_eq|done].
Qed.

(** X11: the body of [runDemo] for any two managers with different
    user IDs, whatever their stores, on any world, and for any two
    strings: it resolves, each side decrypts exactly what the other
    sent, both envelopes are of type 3, and afterwards neither store
    holds its one-time pre-key 123 although the server still serves
    both bundles naming it. *)
Theorem conversation_round_trips message reply d :
  noOwnProto (signalServerStore (world d)) ->
  userId (signalProtocolManagerUser1 d) <> userId (signalProtocolManagerUser2 d) ->
  exists r d',
    conversation message reply d = (Resolved r, d')
    /\ decryptedMessage r = message
    /\ decryptedMessage2 r = reply
    /\ type (encryptedMessage r) = PREKEY_MESSAGE
    /\ type (encryptedMessage2 r) = PREKEY_MESSAGE
    /\ st_preKeys (store (signalProtocolManagerUser1 d')) !! 123%N = None
    /\ st_preKeys (store (signalProtocolManagerUser2 d')) !! 123%N = None
    /\ exists b1 b2,
         getPreKeyBundle (userId (signalProtocolManagerUser1 d))
           (signalServerStore (world d')) = VPreKeyBundle b1
         /\ pk_keyId (preKey b1) = 123%N
         /\ getPreKeyBundle (userId (signalProtocolManagerUser2 d))
              (signalServerStore (world d')) = VPreKeyBundle b2
         /\ pk_keyId (preKey b2) = 123%N.
Proof.
  destruct d as [m1 m2 w]. simpl. intros Hw Hne.
  destruct (initializeAsync_facts m1 w)
    as (m1' & w1 & b1 & I1 & Hu1 & Hsrv1 & Hid1 & Hkeys1 & Hpk1 & _).
  destruct (initializeAsync_facts m2 w1)
    as (m2' & w2 & b2 & I2 & Hu2 & Hsrv2 & Hid2 & Hkeys2 & Hpk2 & _).
  assert (noOwnProto (signalServerStore w1)) as Hw1
    by (rewrite Hsrv1; by apply noOwnProto_register).
  assert (getPreKeyBundle (userId m2) (signalServerStore w2) = VPreKeyBundle b2)
    as Hget2 by (rewrite Hsrv2; by apply getPreKeyBundle_registered).
  assert (getPreKeyBundle (userId m1) (signalServerStore w2) = VPreKeyBundle b1)
    as Hget1
    by (rewrite Hsrv2, Hsrv1; by apply getPreKeyBundle_registered_then_other).
  destruct (first_contact (userId m2) (userId m1) message m1' m2' w2 b2
              Hid1 Hget2 Hkeys2)
    as (e1 & sA & w3 & sB & w4 & Henc1 & Hty1 & _ & Hdec1 & FA & FB & Hsrv4 & _).
  destruct FA as (FAi & FAr & FAp & FAs). destruct FB as (FBi & FBr & FBp & FBs).
  assert (hasIdentity sB) as HidB.
  { destruct Hid2 as [Hi Hr]. split; [by rewrite FBi | by rewrite FBr]. }
  assert (holdsKeysOf sA b1) as HkeysA
    by (by apply (holdsKeysOf_same_keys (store m1'))).
  rewrite <- Hsrv4 in Hget1.
  destruct (first_contact (userId m1) (userId m2) reply
              {| userId := userId m2'; store := sB |}
              {| userId := userId m1'; store := sA |} w4 b1
              HidB Hget1 HkeysA)
    as (e2 & sB' & w5 & sA' & w6 & Henc2 & Hty2 & _ & Hdec2 & FB' & FA' & Hsrv6 & _).
  simpl in *.
  destruct FB' as (_ & _ & FBp' & _). destruct FA' as (_ & _ & FAp' & _).
  eexists _, _. split.
  - unfold conversation, await.
    cbn [signalProtocolManagerUser1 signalProtocolManagerUser2 world].
    rewrite asUser1_bind.
    cbn [signalProtocolManagerUser1 signalProtocolManagerUser2 world]. rewrite I1.
    rewrite asUser2_bind.
    cbn [signalProtocolManagerUser1 signalProtocolManagerUser2 world]. rewrite I2.
    rewrite asUser1_bind.
    cbn [signalProtocolManagerUser1 signalProtocolManagerUser2 world]. rewrite Henc1.
    rewrite asUser2_bind.
    cbn [signalProtocolManagerUser1 signalProtocolManagerUser2 world]. rewrite Hdec1.
    rewrite asUser2_bind.
    cbn [signalProtocolManagerUser1 signalProtocolManagerUser2 world]. rewrite Henc2.
    rewrite asUser1_bind.
    cbn [signalProtocolManagerUser1 signalProtocolManagerUser2 world]. rewrite Hdec2.
    reflexivity.
  - simpl. split; [done|]. split; [done|]. split; [done|]. split; [done|].
    split; [rewrite FAp', Hpk1; apply lookup_delete_eq|].
    split; [rewrite FBp', FBp, Hpk2; apply lookup_delete_eq|].
    exists b1, b2. rewrite Hsrv6. rewrite Hsrv4 in Hget1.
    by rewrite Hsrv4, Hget1, Hget2.
Qed.

End LogOn.

(** ** Logging on again *)

Section LogOnAgain.

Context `{Util}.

(** X3: on a manager whose store holds no identity key pair,
    [_generatePreKeyBundleAsync] rejects, stores nothing and makes no
    call on the server. *)
Theorem generatePreKeyBundleAsync_needs_identity (preKeyId signedPreKeyId : N) m w :
  st_identityKey (store m) = None ->
  exists e w',
    _generatePreKeyBundleAsync preKeyId signedPreKeyId (m, w) = (Rejected e, (m, w'))
    /\ signalServerStore w' = signalServerStore w
    /\ calls w' = calls w.
Proof.
  intros Hnone.
  unfold _generatePreKeyBundleAsync, bind, reading, KeyStore.getIdentityKeyPair.
  rewrite Hnone. by eexists _, _.
Qed.

(** X4: [initializeAsync] always resolves, with exactly one call on
    the server, the registration under [this.userId]; the bundle it
    registers carries three different public keys, its signature
    verifies against its identity key, and the manager's store holds
    the private halves under the IDs the bundle names; the sessions of
    the store are untouched. *)
Theorem initializeAsync_publishes_own_keys m w :
  exists m' w' b,
    initializeAsync (m, w) = (Resolved tt, (m', w'))
    /\ signalServerStore w'
       = registerNewPreKeyBundle (userId m) b (signalServerStore w)
    /\ calls w' = calls w ++ [CallRegisterNewPreKeyBundle (userId m)]
    /\ holdsKeysOf (store m') b
    /\ Ed25519Verify (identityKey b) (spk_publicKey (signedPreKey b))
         (spk_signature (signedPreKey b)) = true
    /\ identityKey b <> pk_publicKey (preKey b)
    /\ identityKey b <> spk_publicKey (signedPreKey b)
    /\ pk_publicKey (preKey b) <> spk_publicKey (signedPreKey b)
    /\ st_registrationId (store m') = Some (registrationId b)
    /\ st_sessions (store m') = st_sessions (store m).
Proof.
  eexists _, _, _. split; [apply initializeAsync_run|]. simpl.
  split; [done|]. split; [done|].
  split; [eexists _, _, _; simpl; rewrite !lookup_insert_eq; by repeat split|].
  split; [by apply bool_decide_eq_true_2|].
  repeat split; try done; intros E; injection E; lia.
Qed.

(** X12: a second [initializeAsync] on a manager replaces its key
    pairs under the same IDs: an envelope encrypted for the bundle of
    the first log-on, which the manager would have decrypted to the
    message, is rejected once it has logged on again; its sessions are
    kept. *)
Theorem message_across_second_initialize_is_rejected
    receiver sender w from message :
  noOwnProto (signalServerStore w) ->
  hasIdentity (store sender) ->
  exists r1 w1 envelope sender' w2 r2 w3,
    initializeAsync (receiver, w) = (Resolved tt, (r1, w1))
    /\ encryptMessageAsync (userId receiver) message (sender, w1)
       = (Resolved envelope, (sender', w2))
    /\ (decryptMessageAsync from envelope (r1, w2)).1 = Resolved message
    /\ initializeAsync (r1, w2) = (Resolved tt, (r2, w3))
    /\ (exists e, (decryptMessageAsync from envelope (r2, w3)).1 = Rejected e)
    /\ st_sessions (store r2) = st_sessions (store receiver).
Proof.
  intros Hw [[idA HidA] [regA HregA]].
  destruct (initializeAsync_facts receiver w)
    as (r1 & w1 & b & I1 & Hu1 & Hsrv1 & Hid1 & Hkeys1 & Hpk1 & Hspk1 & _ & Hsess1
        & n & Hn & Hbound).
  assert (getPreKeyBundle (userId receiver) (signalServerStore w1) = VPreKeyBundle b)
    as Hget by (rewrite Hsrv1; by apply getPreKeyBundle_registered).
  destruct (first_contact (userId receiver) from message sender r1 w1 b
              (conj (ex_intro _ idA HidA) (ex_intro _ regA HregA)) Hget Hkeys1)
    as (envelope & sA & w2 & sB & w2' & Henc & Hty & _ & Hdec & _ & _ & Hsrv2 & _).
  destruct Hkeys1 as (idB & otk & spk & _ & _ & Hsigned & Hik & _ & Hspkpub & Hsig).
  assert (Ed25519Verify (identityKey b) (spk_publicKey (signedPreKey b))
            (spk_signature (signedPreKey b)) = true) as Hverify.
  { rewrite Hik, Hspkpub, Hsig. by apply bool_decide_eq_true_2. }
  destruct (encryptMessageAsync_resolved_form (userId receiver) message sender w1
              (createKeyPair idA) regA b HidA HregA Hget Hverify)
    as (s2 & Hform & _).
  rewrite Hspkpub, Hspk1 in Hform.
  match type of Hform with
  | _ = (Resolved ?c, _) => set (explicit := c) in Hform
  end.
  rewrite Hform in Henc.
  assert (envelope = explicit) as -> by congruence.
  pose proof (f_equal (fun x => entropy x.2.2) Henc) as Hentropy.
  cbn in Hentropy.
  exists r1, w1, explicit. eexists. exists w2. eexists _, _.
  split; [exact I1|]. split; [by rewrite Hform, Henc|].
  split; [by rewrite Hdec|].
  split; [apply initializeAsync_run|].
  cbn [store st_sessions]. split; [|exact Hsess1].
  rewrite decryptMessageAsync_unfold. unfold explicit.
  cbn [type body entropy]. change (PREKEY_MESSAGE =? 3)%Z with true. cbv iota zeta.
  match goal with
  | |- context [libsignal.decryptPreKeyWhisperMessageOn ?a ?bd ?sd ?st] =>
      destruct (prekey_mismatch_rejected a sd st (Pub idA) regA
                  (pk_keyId (preKey b)) 456%N (Pub (entropy w1))
                  (S (entropy w1))
                  (Ratchet.agreeInitiator (createKeyPair idA)
                     (createKeyPair (entropy w1)) b)
                  spk (S (S (S (entropy w2)))) (util_toArrayBuffer message))
        as [e He];
      [ apply lookup_insert_eq
      | rewrite Hspkpub in Hn; injection Hn as <-; lia
      |
        assert (libsignal.decryptPreKeyWhisperMessageOn a bd sd st = Rejected e)
          as -> by exact He;
        by exists e ]
  end.
Qed.

End LogOnAgain.

(** ** The further properties at concrete inputs *)

(** A registration for user 2 leaves the read of user 1 as it was. *)
Lemma registerNewPreKeyBundle_other_user_witness :
  getPreKeyBundle user1
    (registerNewPreKeyBundle user2 sampleBundle
       (registerNewPreKeyBundle user1 sampleBundle newSignalServerStore))
  = getPreKeyBundle user1
      (registerNewPreKeyBundle user1 sampleBundle newSignalServerStore)
  /\ getPreKeyBundle user1
       (registerNewPreKeyBundle user1 sampleBundle newSignalServerStore)
     = VPreKeyBundle sampleBundle.
Proof.
  split; [|reflexivity].
  apply registerNewPreKeyBundle_other_user; [discriminate|].
  left. discriminate.
Defined.

(** After a registration under "__proto__", the unregistered user ID
    "registrationId" reads the number in that bundle. *)
Lemma proto_registration_shadows_undefined_witness :
  getPreKeyBundle "registrationId"
    (registerAll [(user2, sampleBundle)]
       (registerNewPreKeyBundle "__proto__" sampleBundle
          (registerAll [(user1, sampleBundle)] newSignalServerStore)))
  = VNumber 1.
Proof.
  destruct (proto_registration_shadows_undefined
              [(user1, sampleBundle)] [(user2, sampleBundle)] sampleBundle
              "registrationId") as (v & Hv & _ & Hget).
  - unfold user1. simpl. rewrite !not_elem_of_cons.
    split; [discriminate | apply not_elem_of_nil].
  - unfold user2. simpl. rewrite !not_elem_of_cons.
    split; [discriminate | apply not_elem_of_nil].
  - unfold user2. simpl. rewrite !not_elem_of_cons.
    split; [discriminate | apply not_elem_of_nil].
  - unfold bundleFieldNames. rewrite !elem_of_cons. right. by left.
  - rewrite Hget. simpl in Hv. by injection Hv as <-.
Defined.

(** A new manager cannot generate a bundle. *)
Lemma generatePreKeyBundleAsync_needs_identity_witness :
  exists e w',
    _generatePreKeyBundleAsync 123 456
      (newSignalProtocolManager user1, newWorld newSignalServerStore)
    = (Rejected e, (newSignalProtocolManager user1, w')).
Proof.
  destruct (generatePreKeyBundleAsync_needs_identity 123 456
              (newSignalProtocolManager user1) (newWorld newSignalServerStore)
              eq_refl) as (e & w' & Hrun & _).
  exists e, w'. exact Hrun.
Defined.

(** Encrypting for a user nobody registered. *)
Lemma encryptMessageAsync_without_valid_bundle_witness :
  exists e,
    (@encryptMessageAsync binaryUtil user2 "Hello User 2 !"
       (newSignalProtocolManager user1, newWorld newSignalServerStore)).1
    = Rejected e.
Proof.
  destruct (@encryptMessageAsync_without_valid_bundle binaryUtil user2
              "Hello User 2 !" (newSignalProtocolManager user1)
              (newWorld newSignalServerStore)) as [e He].
  - intros b Hb. discriminate Hb.
  - exists e. rewrite He. reflexivity.
Defined.

(** The two managers of the demo, logged on. *)
Lemma encryptMessageAsync_with_valid_bundle_witness :
  exists d envelope,
    d = @runCalls binaryUtil [(true, DoInitialize); (false, DoInitialize)] newDemo
    /\ (@encryptMessageAsync binaryUtil user2 "Hello User 2 !"
          (signalProtocolManagerUser1 d, world d)).1 = Resolved envelope
    /\ namedPreKey envelope = Some 123%N.
Proof.
  eexists.
  edestruct (@encryptMessageAsync_with_valid_bundle binaryUtil user2
               "Hello User 2 !"
               (signalProtocolManagerUser1
                  (@runCalls binaryUtil [(true, DoInitialize); (false, DoInitialize)]
                     newDemo))
               (world (@runCalls binaryUtil [(true, DoInitialize); (false, DoInitialize)]
                         newDemo)))
    as (key & m' & w' & Hrun & _).
  - vm_compute. reflexivity.
  - vm_compute. reflexivity.
  - vm_compute. reflexivity.
  - vm_compute. reflexivity.
  - eexists. split; [reflexivity|]. rewrite Hrun. split; reflexivity.
Defined.

Lemma first_message_round_trip_witness :
  exists d envelope sender' w1 receiver' w2,
    d = @runCalls binaryUtil [(true, DoInitialize); (false, DoInitialize)] newDemo
    /\ @encryptMessageAsync binaryUtil user2 "Hello User 2 !"
         (signalProtocolManagerUser1 d, world d)
       = (Resolved envelope, (sender', w1))
    /\ @decryptMessageAsync binaryUtil user1 envelope
         (signalProtocolManagerUser2 d, w1)
       = (Resolved "Hello User 2 !", (receiver', w2)).
Proof.
  eexists.
  edestruct (@first_message_round_trip binaryUtil user2 user1 "Hello User 2 !"
               (signalProtocolManagerUser1
                  (@runCalls binaryUtil [(true, DoInitialize); (false, DoInitialize)]
                     newDemo))
               (signalProtocolManagerUser2
                  (@runCalls binaryUtil [(true, DoInitialize); (false, DoInitialize)]
                     newDemo))
               (world (@runCalls binaryUtil [(true, DoInitialize); (false, DoInitialize)]
                         newDemo)))
    as (envelope & sender' & w1 & receiver' & w2 & Henc & _ & Hdec & _).
  - split; [exists 0 | eexists]; vm_compute; reflexivity.
  - vm_compute. reflexivity.
  - exists 4, 6, 7. vm_compute. by repeat split.
  - exists envelope, sender', w1, receiver', w2.
    split; [reflexivity|]. split; [exact Henc | exact Hdec].
Defined.

Lemma conversation_round_trips_witness :
  exists r d',
    @conversation binaryUtil "Hello User 2 !" "What is up user 1?" newDemo
    = (Resolved r, d')
    /\ decryptedMessage r = "Hello User 2 !"
    /\ decryptedMessage2 r = "What is up user 1?".
Proof.
  destruct (@conversation_round_trips binaryUtil "Hello User 2 !"
              "What is up user 1?" newDemo)
    as (r & d' & Hrun & H1 & H2 & _).
  - reflexivity.
  - discriminate.
  - exists r, d'. split; [exact Hrun|]. split; [exact H1 | exact H2].
Defined.

Lemma message_across_second_initialize_is_rejected_witness :
  exists r1 w1 envelope sender' w2 r2 w3 e,
    initializeAsync (newSignalProtocolManager user2, newWorld newSignalServerStore)
    = (Resolved tt, (r1, w1))
    /\ @encryptMessageAsync binaryUtil user2 "Hello User 2 !"
         ({| userId := user1;
             store := {| st_identityKey := Some (createKeyPair 100);
                         st_registrationId := Some 1%N;
                         st_preKeys := ∅; st_signedPreKeys := ∅;
                         st_sessions := ∅ |} |}, w1)
       = (Resolved envelope, (sender', w2))
    /\ initializeAsync (r1, w2) = (Resolved tt, (r2, w3))
    /\ (@decryptMessageAsync binaryUtil user1 envelope (r2, w3)).1 = Rejected e.
Proof.
  destruct (@message_across_second_initialize_is_rejected binaryUtil
              (newSignalProtocolManager user2)
              {| userId := user1;
                 store := {| st_identityKey := Some (createKeyPair 100);
                             st_registrationId := Some 1%N;
                             st_preKeys := ∅; st_signedPreKeys := ∅;
                             st_sessions := ∅ |} |}
              (newWorld newSignalServerStore) user1 "Hello User 2 !")
    as (r1 & w1 & envelope & sender' & w2 & r2 & w3 & I1 & Henc & _ & I2 & [e He] & _).
  - reflexivity.
  - split; [by exists 100 | by eexists].
  - exists r1, w1, envelope, sender', w2, r2, w3, e.
    split; [exact I1|]. split; [exact Henc|]. split; [exact I2 | exact He].
Defined.

Lemma messaging_keeps_key_material_witness :
  exists envelope d st,
    @firstMessageFrom binaryUtil "Hello User 2 !" newDemo = (Resolved envelope, d)
    /\ st = @performAll binaryUtil
              [DoDecrypt user1 envelope; DoEncrypt user1 "What is up user 1?"]
              (signalProtocolManagerUser2 d, world d)
    /\ st_identityKey (store st.1) = Some (createKeyPair 4)
    /\ st_registrationId (store st.1) = Some 5%N
    /\ st_signedPreKeys (store st.1)
       = st_signedPreKeys (store (signalProtocolManagerUser2 d))
    /\ st_preKeys (store (signalProtocolManagerUser2 d)) !! 123%N
       = Some (createKeyPair 6)
    /\ st_preKeys (store st.1) !! 123%N = None
    /\ st_sessions (store (signalProtocolManagerUser2 d)) !! (user1, 123%Z) = None
    /\ is_Some (st_sessions (store st.1) !! (user1, 123%Z))
    /\ signalServerStore st.2 = signalServerStore (world d).
Proof.
  let v := eval vm_compute in (@firstMessageFrom binaryUtil "Hello User 2 !" newDemo) in
  lazymatch v with
  | (Resolved ?c, ?d) =>
      assert (Forall isMessaging
                [DoDecrypt user1 c; DoEncrypt user1 "What is up user 1?"]) as Hcs
        by (constructor; [discriminate | constructor; [discriminate | constructor]]);
      destruct (@messaging_keeps_key_material binaryUtil
                  [DoDecrypt user1 c; DoEncrypt user1 "What is up user 1?"]
                  (signalProtocolManagerUser2 d, world d) Hcs)
        as (_ & Hi & Hr & Hsp & _ & Hs);
      exists c, d;
      eexists; split; [vm_compute; reflexivity|]; split; [reflexivity|];
      split; [etrans; [exact Hi | vm_compute; reflexivity]|];
      split; [etrans; [exact Hr | vm_compute; reflexivity]|];
      split; [exact Hsp|];
      split; [vm_compute; reflexivity|];
      split; [vm_compute; reflexivity|];
      split; [vm_compute; reflexivity|];
      split; [eexists; vm_compute; reflexivity | exact Hs]
  end.
Defined.

Lemma consumed_prekey_stays_rejected_witness :
  exists envelope d m' w' e,
    @firstMessageFrom binaryUtil "Hello User 2 !" newDemo = (Resolved envelope, d)
    /\ @decryptMessageAsync binaryUtil user1 envelope
         (signalProtocolManagerUser2 d, world d)
       = (Resolved "Hello User 2 !", (m', w'))
    /\ st_preKeys (store m') !! 123%N = None
    /\ (@decryptMessageAsync binaryUtil user1 envelope
          (@performAll binaryUtil [DoEncrypt user1 "What is up user 1?"] (m', w'))).1
       = Rejected e.
Proof.
  assert (Forall isMessaging [DoEncrypt user1 "What is up user 1?"]) as Hcs
    by (constructor; [discriminate | constructor]).
  let v := eval vm_compute in (@firstMessageFrom binaryUtil "Hello User 2 !" newDemo) in
  lazymatch v with
  | (Resolved ?c, ?d) =>
      let r := eval vm_compute in
        (@decryptMessageAsync binaryUtil user1 c
           (signalProtocolManagerUser2 d, world d)) in
      lazymatch r with
      | (Resolved ?p, (?m', ?w')) =>
          assert (@decryptMessageAsync binaryUtil user1 c
                    (signalProtocolManagerUser2 d, world d)
                  = (Resolved p, (m', w'))) as Hrun by (vm_compute; reflexivity);
          destruct (@consumed_prekey_stays_rejected binaryUtil user1 c
                      (signalProtocolManagerUser2 d) (world d) p m' w' 123%N
                      [DoEncrypt user1 "What is up user 1?"] user1 c
                      eq_refl eq_refl Hrun
                      Hcs
                      eq_refl eq_refl)
            as (Hgone & _ & e & He);
          exists c, d, m', w', e;
          split; [vm_compute; reflexivity|];
          split; [exact Hrun|]; split; [exact Hgone | exact He]
      end
  end.
Defined.

(** * Two encryptions in flight *)

Section ConcurrencyProofs.

Context `{Util}.













End ConcurrencyProofs.

Section ConcurrencyClaim.

Context `{Util}.


End ConcurrencyClaim.


